(** * Channel health management and webhook notification

    A shallow embedding of [service/channel.go], [service/webhook.go] and
    [types/channel_error.go]: the error classifier that decides whether a
    channel is taken out of rotation, the disable/enable transitions with
    their notifications, and the webhook formatter and transport.

    Go values are modelled as follows: [int]/[int64] as [Z], [string] and
    [[]byte] as [string] (a sequence of bytes), a nilable pointer as
    [option], [map[string]string] as [gmap string string], and a function
    with effects as a computation in the monad [IO] below, which threads the
    clock and records every call to an external collaborator in a trace. *)

From Stdlib Require Import ZArith String Ascii List DecimalString DecimalZ Lia.
From stdpp Require Import base strings gmap list.

Local Open Scope Z_scope.
Local Open Scope string_scope.

(** ** Go standard library: the parts the code uses on concrete data *)

Definition LF : string := String (ascii_of_nat 10) "".
Definition CR : string := String (ascii_of_nat 13) "".

(** The separator of the notify-type key. *)
Definition underscore : ascii := "_"%char.

(** [fmt.Sprintf("%d", n)]: signed decimal, no leading zeros, ["-"] prefix. *)
Definition itoa (n : Z) : string := NilEmpty.string_of_int (Z.to_int n).

Module strings.

(** [strings.HasPrefix(s, prefix)] *)
Definition HasPrefix (s prefix : string) : bool := String.prefix prefix s.

(** [strings.Contains(s, substr)]: [substr] occurs at some offset of [s]. *)
Fixpoint Contains (s substr : string) : bool :=
  if String.prefix substr s then true
  else match s with
       | EmptyString => false
       | String _ rest => Contains rest substr
       end.

Fixpoint drop (n : nat) (s : string) : string :=
  match n, s with
  | O, _ => s
  | S n', String _ rest => drop n' rest
  | S _, EmptyString => EmptyString
  end.

Fixpoint replace_from (fuel : nat) (s old new : string) : string :=
  match fuel with
  | O => s
  | S fuel' =>
      match s with
      | EmptyString => EmptyString
      | String c rest =>
          if String.prefix old s
          then new +:+ replace_from fuel' (drop (String.length old) s) old new
          else String c (replace_from fuel' rest old new)
      end
  end.

(** [strings.ReplaceAll(s, old, new)] for a non-empty [old], the only way
    the code calls it: non-overlapping occurrences, left to right. With an
    empty [old] the string is returned as it is (Go would interleave
    [new]; no call site does that). *)
Definition ReplaceAll (s old new : string) : string :=
  match old with
  | EmptyString => s
  | _ => replace_from (String.length s) s old new
  end.

End strings.

(** ** Imported declarations

    The packages [common], [constant], [dto], [operation_setting] and
    [system_setting] are imported by the code; their constants and switches
    are taken as parameters. *)

Class Constants := {
  ChannelTypeGemini : Z;            (* constant.ChannelTypeGemini *)
  ChannelStatusEnabled : Z;         (* common.ChannelStatusEnabled *)
  ChannelStatusAutoDisabled : Z;    (* common.ChannelStatusAutoDisabled *)
  NotifyTypeChannelUpdate : string  (* dto.NotifyTypeChannelUpdate *)
}.

(** [system_setting.GetFetchSetting()] *)
Record FetchSetting := {
  EnableSSRFProtection : bool;
  AllowPrivateIp : bool;
  DomainFilterMode : bool;
  IpFilterMode : bool;
  DomainList : list string;
  IpList : list string;
  AllowedPorts : list string;
  ApplyIPFilterForDomain : bool
}.

(** The global switches read by the code. *)
Class Settings := {
  AutomaticDisableChannelEnabled : bool;   (* common. *)
  AutomaticEnableChannelEnabled : bool;    (* common. *)
  AutomaticDisableKeywords : list string;  (* operation_setting. *)
  EnableWorker : bool;                     (* system_setting.EnableWorker() *)
  WorkerValidKey : string;                 (* system_setting. *)
  GetFetchSetting : FetchSetting           (* system_setting. *)
}.

(** [types.OpenAIError], the result of [err.ToOpenAIError()]: the two
    fields the classifier switches on. [Code] has type [any] in Go; a value
    that is not a string matches no [case], like a string outside the list. *)
Record OpenAIError := {
  Code : string;
  Type_ : string   (* the field Type *)
}.

(** Modelled from the spec: the type [types.NewAPIError] and its functions
    [IsChannelError], [IsSkipRetryError], [ToOpenAIError] and [Error] are
    not part of the sources at hand. The spec's UpstreamError carries an
    HTTP-like status code, a human-readable message, a normalized error with
    a code and a type, and the two flags "channel-level" and "skip-retry". *)
Record NewAPIError := {
  IsChannelError : bool;
  IsSkipRetryError : bool;
  StatusCode : Z;
  ToOpenAIError : OpenAIError;
  Error : string
}.

(** [types.ChannelError] *)
Record ChannelError := {
  ChannelId : Z;
  ChannelType : Z;
  ChannelName : string;
  IsMultiKey : bool;
  AutoBan : bool;
  UsingKey : string;
  Tag : string
}.

Definition NewChannelError (channelId channelType : Z) (channelName : string)
    (isMultiKey : bool) (usingKey : string) (autoBan : bool) (tag : string)
    : ChannelError :=
  {| ChannelId := channelId;
     ChannelType := channelType;
     ChannelName := channelName;
     IsMultiKey := isMultiKey;
     AutoBan := autoBan;
     UsingKey := usingKey;
     Tag := tag |}.

Definition StatusUnauthorized : Z := 401.
Definition StatusForbidden : Z := 403.
Definition MethodPost : string := "POST".

(** ** External collaborators

    Functions of the Go standard library that the code applies to data it
    does not control, taken as parameters. [Value] is the type of the
    elements of [dto.Notify.Values] ([interface{}] in Go). A point in time
    is its number of nanoseconds since the Unix epoch. *)
Class GoLib := {
  Value : Type;
  strings_ToLower : string -> string;
  (* fmt.Sprintf(format, v) with one operand *)
  fmt_Sprintf : string -> Value -> string;
  (* time.Time.Format("2006-01-02 15:04:05") *)
  time_Format : Z -> string;
  (* hmac.New(sha256.New, key); h.Write(msg); h.Sum(nil) *)
  hmac_sha256 : string -> string -> string;
  hex_EncodeToString : string -> string;
  base64_StdEncoding_EncodeToString : string -> string;
  url_QueryEscape : string -> string
}.

Module dto.
(** [dto.Notify]; the field [Type] is spelled [Type_]. *)
Record Notify `{GoLib} := {
  Type_ : string;
  Title : string;
  Content : string;
  Values : list Value
}.
End dto.

(** [WebhookPayload]: the generic schema. *)
Record WebhookPayload `{GoLib} := {
  wp_Type : string;
  wp_Title : string;
  wp_Content : string;
  wp_Values : list Value;
  wp_Timestamp : Z
}.

(** [DingTalkMarkdownPayload]: the chat-bot schema. *)
Record DingTalkMarkdownPayload := {
  MsgType : string;
  Markdown_Title : string;
  Markdown_Text : string
}.

(** [WorkerRequest], the descriptor handed to the worker relay. *)
Record WorkerRequest := {
  URL : string;
  Key : string;
  Method : string;
  Headers : gmap string string;
  Body : string
}.

Module http.
(** [http.Request] as [http.NewRequest] builds it and the code fills it. *)
Record Request := {
  Method : string;
  URL : string;
  Body : string;
  Header : gmap string string
}.

(** [req.Header.Set(key, value)]; the keys the code sets are already in
    canonical form. *)
Definition Header_Set (req : Request) (key value : string) : Request :=
  {| Method := Method req; URL := URL req; Body := Body req;
     Header := <[key := value]> (Header req) |}.
End http.

(** The rest of the repository and the outside world, taken as parameters.
    A call that can fail returns [inl] of the error's message. A response is
    its status code; closing its body is not modelled. *)
Class Collaborators `{GoLib} := {
  (* service.AcSearch(text, dict, stopImmediately) *)
  AcSearch : string -> list string -> bool -> bool * list string;
  (* model.UpdateChannelStatus(channelId, usingKey, status, reason) *)
  UpdateChannelStatus : Z -> string -> Z -> string -> bool;
  (* the instant returned by the n-th call of time.Now() *)
  time_Now : nat -> Z;
  json_Marshal_DingTalk : DingTalkMarkdownPayload -> string + string;
  json_Marshal_Webhook : WebhookPayload -> string + string;
  (* common.ValidateURLWithFetchSetting(url, ...): None is a nil error *)
  ValidateURLWithFetchSetting : string -> FetchSetting -> option string;
  (* the error of http.NewRequest(method, url, body), None when it is nil *)
  http_NewRequest_err : string -> string -> option string;
  (* GetHttpClient().Do(req) *)
  client_Do : http.Request -> string + Z;
  DoWorkerRequest : WorkerRequest -> string + Z
}.

(** ** Effects

    Every call that leaves the process is recorded, in order. *)
Inductive Event :=
  | EvSysLog (msg : string)
  | EvUpdateChannelStatus (channelId : Z) (usingKey : string) (status : Z)
      (reason : string)
  | EvNotifyRootUser (t subject content : string)
  | EvValidateURL (url : string) (fetchSetting : FetchSetting)
  | EvNewRequest (method url body : string)
  | EvClientDo (req : http.Request)
  | EvDoWorkerRequest (req : WorkerRequest).

Record World := {
  ticks : nat;         (* how many times time.Now() was called *)
  trace : list Event
}.

Definition world0 : World := {| ticks := O; trace := [] |}.

(** A Go function that returns an [error]: [Fail e] is the early
    [return fmt.Errorf(...)], after which nothing else runs. *)
Inductive result (A : Type) :=
  | Ok (a : A)
  | Fail (e : string).
Arguments Ok {A} a.
Arguments Fail {A} e.

Definition IO (A : Type) : Type := World -> result A * World.

Definition fail {A} (e : string) : IO A := fun w => (Fail e, w).

#[global] Instance IO_ret : MRet IO := fun A a w => (Ok a, w).

#[global] Instance IO_bind : MBind IO := fun A B k m w =>
  match m w with
  | (Ok a, w') => k a w'
  | (Fail e, w') => (Fail e, w')
  end.

Definition emit (ev : Event) : IO unit :=
  fun w => (Ok tt, {| ticks := ticks w; trace := trace w ++ [ev] |}).

Definition tick (w : World) : World :=
  {| ticks := S (ticks w); trace := trace w |}.

(** [time.Now()] *)
Definition time_Now_io `{Collaborators} : IO Z :=
  fun w => (Ok (time_Now (ticks w)), tick w).

(** [t.Unix()]: whole seconds; [t.UnixNano()] is the instant itself. *)
Definition Unix (t : Z) : Z := t / 1000000000.

Definition run {A} (m : IO A) : result A * World := m world0.

(** Which events are writes to the store, notifications, network I/O. *)
Definition is_store_call (ev : Event) : bool :=
  match ev with EvUpdateChannelStatus _ _ _ _ => true | _ => false end.

Definition is_notification (ev : Event) : bool :=
  match ev with EvNotifyRootUser _ _ _ => true | _ => false end.

Definition is_http_request (ev : Event) : bool :=
  match ev with
  | EvNewRequest _ _ _ | EvClientDo _ | EvDoWorkerRequest _ => true
  | _ => false
  end.

(** [common.SysLog(s)] *)
Definition SysLog (msg : string) : IO unit := emit (EvSysLog msg).

(** [NotifyRootUser(t, subject, content)]: the notification router. *)
Definition NotifyRootUser (t subject content : string) : IO unit :=
  emit (EvNotifyRootUser t subject content).

(** [model.UpdateChannelStatus(...)]: the call is recorded, the store
    answers whether the transition was applied. *)
Definition UpdateChannelStatus_io `{Collaborators} (channelId : Z)
    (usingKey : string) (status : Z) (reason : string) : IO bool :=
  emit (EvUpdateChannelStatus channelId usingKey status reason);;
  mret (UpdateChannelStatus channelId usingKey status reason).

(** ** service/channel.go *)

Section Channel.
Context `{Constants} `{Settings} `{Collaborators}.

Definition formatNotifyType (channelId status : Z) : string :=
  NotifyTypeChannelUpdate +:+ "_" +:+ itoa channelId +:+ "_" +:+ itoa status.

Definition DisableChannel (channelError : ChannelError) (reason : string)
    : IO unit :=
  SysLog ("通道「" +:+ ChannelName channelError +:+ "」（#"
          +:+ itoa (ChannelId channelError)
          +:+ "）发生错误，准备禁用，原因：" +:+ reason);;
  if negb (AutoBan channelError) then
    SysLog ("通道「" +:+ ChannelName channelError +:+ "」（#"
            +:+ itoa (ChannelId channelError)
            +:+ "）未启用自动禁用功能，跳过禁用操作")
  else
    success ← UpdateChannelStatus_io (ChannelId channelError)
                (UsingKey channelError) ChannelStatusAutoDisabled reason;
    if success : bool then
      t ← time_Now_io;
      let now := time_Format t in
      let subject := "【通道告警】- " +:+ ChannelName channelError
                     +:+ " (#" +:+ itoa (ChannelId channelError) +:+ ")" in
      let content :=
        "**【通道告警】- New API 通道监控 🚨**" +:+ LF
        +:+ "**📡 通道名称:** " +:+ ChannelName channelError +:+ LF
        +:+ "**🆔 通道ID:** #" +:+ itoa (ChannelId channelError) +:+ LF
        +:+ "**🔄 状态变更: 启用 → 自动禁用**" +:+ LF
        +:+ "**🕘 禁用时间:** " +:+ now +:+ LF
        +:+ "**⚠️ 告警等级: 严重**" +:+ LF
        +:+ "**📝 失败原因:** " +:+ reason +:+ LF
        +:+ "&nbsp;&nbsp;&nbsp;&nbsp;&nbsp;—— 🧑‍🤝‍🧑 LaiYe科技 -- 运维团队 ——" in
      NotifyRootUser
        (formatNotifyType (ChannelId channelError) ChannelStatusAutoDisabled)
        subject content
    else mret tt.

Definition EnableChannel (channelId : Z) (usingKey channelName : string)
    : IO unit :=
  success ← UpdateChannelStatus_io channelId usingKey ChannelStatusEnabled "";
  if success : bool then
    t ← time_Now_io;
    let now := time_Format t in
    let subject := "【通道恢复】- " +:+ channelName
                   +:+ " (#" +:+ itoa channelId +:+ ")" in
    let content :=
      "**【通道恢复】- New API 通道监控 ✅**" +:+ LF
      +:+ "**📡 通道名称:** " +:+ channelName +:+ LF
      +:+ "**🆔 通道ID:** #" +:+ itoa channelId +:+ LF
      +:+ "**🔄 状态变更: 自动禁用 → 启用**" +:+ LF
      +:+ "**🕘 恢复时间:** " +:+ now +:+ LF
      +:+ "**✨ 状态: 通道已恢复正常**" +:+ LF
      +:+ "&nbsp;&nbsp;&nbsp;&nbsp;&nbsp;—— 🧑‍🤝‍🧑 LaiYe科技 -- 运维团队 ——" in
    NotifyRootUser (formatNotifyType channelId ChannelStatusEnabled)
      subject content
  else mret tt.

(** [switch x { case c1: return true ... }] over string constants. *)
Definition switch_case (x : string) (cases : list string) : bool :=
  existsb (String.eqb x) cases.

Definition disable_codes : list string :=
  ["invalid_api_key"; "account_deactivated"; "billing_not_active";
   "pre_consume_token_quota_failed"; "Arrearage"].

Definition disable_types : list string :=
  ["insufficient_quota"; "insufficient_user_quota"; "authentication_error";
   "permission_error"; "forbidden"].

Definition ShouldDisableChannel (channelType : Z) (err : option NewAPIError)
    : bool :=
  if negb AutomaticDisableChannelEnabled then false else
  match err with
  | None => false
  | Some err =>
      if IsChannelError err then true else
      if IsSkipRetryError err then false else
      if (StatusCode err =? StatusUnauthorized)%Z then true else
      if (StatusCode err =? StatusForbidden)%Z
         && (channelType =? ChannelTypeGemini)%Z then true else
      let oaiErr := ToOpenAIError err in
      if switch_case (Code oaiErr) disable_codes then true else
      if switch_case (Type_ oaiErr) disable_types then true else
      let lowerMessage := strings_ToLower (Error err) in
      let '(search, _) :=
        AcSearch lowerMessage AutomaticDisableKeywords true in
      search
  end.

Definition ShouldEnableChannel (newAPIError : option NewAPIError)
    (status : Z) : bool :=
  if negb AutomaticEnableChannelEnabled then false else
  match newAPIError with
  | Some _ => false
  | None =>
      if negb (status =? ChannelStatusAutoDisabled)%Z then false else true
  end.

End Channel.

(** ** service/webhook.go *)

(** [common.ValidateURLWithFetchSetting(url, fetchSetting. ...)] *)
Definition ValidateURL_io `{Collaborators} (url : string)
    (fetchSetting : FetchSetting) : IO (option string) :=
  emit (EvValidateURL url fetchSetting);;
  mret (ValidateURLWithFetchSetting url fetchSetting).

(** [http.NewRequest(method, url, bytes.NewBuffer(body))] *)
Definition http_NewRequest `{Collaborators} (method url body : string)
    : IO (string + http.Request) :=
  emit (EvNewRequest method url body);;
  mret (match http_NewRequest_err method url with
        | Some e => inl e
        | None => inr {| http.Method := method; http.URL := url;
                         http.Body := body; http.Header := ∅ |}
        end).

(** [client.Do(req)] *)
Definition client_Do_io `{Collaborators} (req : http.Request)
    : IO (string + Z) :=
  emit (EvClientDo req);; mret (client_Do req).

(** [DoWorkerRequest(workerReq)] *)
Definition DoWorkerRequest_io `{Collaborators} (req : WorkerRequest)
    : IO (string + Z) :=
  emit (EvDoWorkerRequest req);; mret (DoWorkerRequest req).

Section Webhook.
Context `{Constants} `{Settings} `{Collaborators}.

Definition generateSignature (secret payload : string) : string :=
  hex_EncodeToString (hmac_sha256 secret payload).

Definition isDingTalkWebhook (webhookURL : string) : bool :=
  strings.Contains webhookURL "oapi.dingtalk.com"
  || strings.Contains webhookURL "api.dingtalk.com".

Definition generateDingTalkSign (secret : string) (timestamp : Z) : string :=
  let stringToSign := itoa timestamp +:+ LF +:+ secret in
  base64_StdEncoding_EncodeToString (hmac_sha256 secret stringToSign).

(** [for _, value := range data.Values
       { content = fmt.Sprintf(content, value) }] *)
Fixpoint substituteValues (content : string) (values : list Value)
    : string :=
  match values with
  | [] => content
  | value :: rest => substituteValues (fmt_Sprintf content value) rest
  end.

(** The chat-bot branch up to [json.Marshal]. *)
Definition dingTalkPayload (data : dto.Notify) (content : string)
    : DingTalkMarkdownPayload :=
  let dingTalkContent := strings.ReplaceAll content (CR +:+ LF) LF in
  let dingTalkContent :=
    strings.ReplaceAll dingTalkContent LF ("  " +:+ LF) in
  let includeTitle := negb (String.eqb (dto.Title data) "") in
  let includeTitle :=
    if strings.HasPrefix (dto.Type_ data) NotifyTypeChannelUpdate
    then false else includeTitle in
  {| MsgType := "markdown";
     Markdown_Title := dto.Title data;
     Markdown_Text :=
       if includeTitle
       then "### " +:+ dto.Title data +:+ LF +:+ LF +:+ dingTalkContent
       else dingTalkContent |}.

(** The generic branch up to [json.Marshal]. *)
Definition webhookPayload (data : dto.Notify) (content : string)
    (timestamp : Z) : WebhookPayload :=
  {| wp_Type := dto.Type_ data;
     wp_Title := dto.Title data;
     wp_Content := content;
     wp_Values := dto.Values data;
     wp_Timestamp := timestamp |}.

(** The signed chat-bot URL, for the instant [t] read from the clock. *)
Definition signedDingTalkURL (webhookURL secret : string) (t : Z) : string :=
  let timestampMs := Z.quot t 1000000 in
  let sign := generateDingTalkSign secret timestampMs in
  if strings.Contains webhookURL "?"
  then webhookURL +:+ "&timestamp=" +:+ itoa timestampMs
       +:+ "&sign=" +:+ url_QueryEscape sign
  else webhookURL +:+ "?timestamp=" +:+ itoa timestampMs
       +:+ "&sign=" +:+ url_QueryEscape sign.

(** Lines 69-133: the payload bytes and the final URL. *)
Definition formatWebhook (webhookURL secret : string) (data : dto.Notify)
    : IO (string * string) :=
  let content := substituteValues (dto.Content data) (dto.Values data) in
  now ← time_Now_io;
  let timestamp := Unix now in
  if isDingTalkWebhook webhookURL then
    match json_Marshal_DingTalk (dingTalkPayload data content) with
    | inl err =>
        fail ("failed to marshal dingtalk webhook payload: " +:+ err)
    | inr payloadBytes =>
        if negb (String.eqb secret "") then
          t ← time_Now_io;
          mret (payloadBytes, signedDingTalkURL webhookURL secret t)
        else mret (payloadBytes, webhookURL)
    end
  else
    match json_Marshal_Webhook (webhookPayload data content timestamp) with
    | inl err => fail ("failed to marshal webhook payload: " +:+ err)
    | inr payloadBytes => mret (payloadBytes, webhookURL)
    end.

(** [resp.StatusCode < 200 || resp.StatusCode >= 300] *)
Definition checkStatus (statusCode : Z) : IO unit :=
  if (statusCode <? 200)%Z || (300 <=? statusCode)%Z
  then fail ("webhook request failed with status code: "
             +:+ itoa statusCode)
  else mret tt.

(** Lines 141-156: the descriptor handed to the worker relay. *)
Definition buildWorkerRequest (webhookURL secret payloadBytes
    finalWebhookURL : string) : WorkerRequest :=
  let headers : gmap string string :=
    {[ "Content-Type" := "application/json" ]} in
  let headers :=
    if negb (String.eqb secret "") && negb (isDingTalkWebhook webhookURL)
    then
      let signature := generateSignature secret payloadBytes in
      <["Authorization" := "Bearer " +:+ secret]>
        (<["X-Webhook-Signature" := signature]> headers)
    else headers in
  {| URL := finalWebhookURL; Key := WorkerValidKey; Method := MethodPost;
     Headers := headers; Body := payloadBytes |}.

(** Lines 139-167: delivery through the worker relay. *)
Definition sendThroughWorker (webhookURL secret payloadBytes
    finalWebhookURL : string) : IO unit :=
  let workerReq :=
    buildWorkerRequest webhookURL secret payloadBytes finalWebhookURL in
  resp ← DoWorkerRequest_io workerReq;
  match resp with
  | inl err =>
      fail ("failed to send webhook request through worker: " +:+ err)
  | inr statusCode => checkStatus statusCode
  end.

(** Lines 180-187: the headers of the direct request. *)
Definition setRequestHeaders (webhookURL secret payloadBytes : string)
    (req : http.Request) : http.Request :=
  let req := http.Header_Set req "Content-Type" "application/json" in
  if negb (String.eqb secret "") && negb (isDingTalkWebhook webhookURL)
  then http.Header_Set req "X-Webhook-Signature"
         (generateSignature secret payloadBytes)
  else req.

(** Lines 168-201: direct delivery behind the SSRF check. *)
Definition sendDirect (webhookURL secret payloadBytes
    finalWebhookURL : string) : IO unit :=
  let fetchSetting := GetFetchSetting in
  rejected ← ValidateURL_io finalWebhookURL fetchSetting;
  match rejected with
  | Some err => fail ("request reject: " +:+ err)
  | None =>
      r ← http_NewRequest MethodPost finalWebhookURL payloadBytes;
      match r with
      | inl err => fail ("failed to create webhook request: " +:+ err)
      | inr req =>
          let req := setRequestHeaders webhookURL secret payloadBytes req in
          resp ← client_Do_io req;
          match resp with
          | inl err => fail ("failed to send webhook request: " +:+ err)
          | inr statusCode => checkStatus statusCode
          end
      end
  end.

(** The calls of the direct mode, in order: the validation, then the
    request unless the validator rejects, then the exchange unless the
    request cannot be built. *)
Definition direct_events (webhookURL secret payloadBytes
    finalWebhookURL : string) : list Event :=
  EvValidateURL finalWebhookURL GetFetchSetting ::
  match ValidateURLWithFetchSetting finalWebhookURL GetFetchSetting with
  | Some _ => []
  | None =>
      EvNewRequest MethodPost finalWebhookURL payloadBytes ::
      match http_NewRequest_err MethodPost finalWebhookURL with
      | Some _ => []
      | None =>
          [EvClientDo
             (setRequestHeaders webhookURL secret payloadBytes
                {| http.Method := MethodPost;
                   http.URL := finalWebhookURL;
                   http.Body := payloadBytes;
                   http.Header := ∅ |})]
      end
  end.

(** [SendWebhookNotify]: [Ok tt] is the [nil] error. *)
Definition SendWebhookNotify (webhookURL secret : string)
    (data : dto.Notify) : IO unit :=
  '(payloadBytes, finalWebhookURL) ← formatWebhook webhookURL secret data;
  if EnableWorker
  then sendThroughWorker webhookURL secret payloadBytes finalWebhookURL
  else sendDirect webhookURL secret payloadBytes finalWebhookURL.

End Webhook.

(** ** The host of a URL, as the specification speaks of it

    The code never parses a URL. To compare it with a detection "by host",
    [url_host] follows the words of the specification: what stands between
    the scheme separator and the first of [/], [?] and [#]. *)

Fixpoint after_separator (sep s : string) : option string :=
  if String.prefix sep s then Some (strings.drop (String.length sep) s)
  else match s with
       | EmptyString => None
       | String _ rest => after_separator sep rest
       end.

Fixpoint take_authority (s : string) : string :=
  match s with
  | EmptyString => EmptyString
  | String c rest =>
      if Ascii.eqb c "/" || Ascii.eqb c "?" || Ascii.eqb c "#"
      then EmptyString
      else String c (take_authority rest)
  end.

Definition url_host (u : string) : string :=
  take_authority (default u (after_separator "://" u)).

(** Detection by host, in the specification's words. *)
Definition host_is_chat_bot (u : string) : bool :=
  strings.Contains (url_host u) "oapi.dingtalk.com"
  || strings.Contains (url_host u) "api.dingtalk.com".

(** ** Stand-ins for the collaborators

    Concrete collaborators on which the model runs, used to evaluate it on
    examples. [Value] is a string and the formatter knows the verb [%s]
    only: the first [%s] is replaced, and a call without one appends Go's
    [%!(EXTRA ...)] note. *)

Definition lower_ascii (c : ascii) : ascii :=
  let n := nat_of_ascii c in
  if (65 <=? n)%nat && (n <=? 90)%nat then ascii_of_nat (n + 32) else c.

Fixpoint lower_string (s : string) : string :=
  match s with
  | EmptyString => EmptyString
  | String c rest => String (lower_ascii c) (lower_string rest)
  end.

Fixpoint replace_first_verb (format v : string) : option string :=
  match format with
  | EmptyString => None
  | String c rest =>
      if String.prefix "%s" format
      then Some (v +:+ strings.drop 2 format)
      else String c <$> replace_first_verb rest v
  end.

Definition sprintf_string (format v : string) : string :=
  default (format +:+ "%!(EXTRA string=" +:+ v +:+ ")")
          (replace_first_verb format v).

#[local] Instance demo_golib : GoLib := {|
  Value := string;
  strings_ToLower := lower_string;
  fmt_Sprintf := sprintf_string;
  time_Format := itoa;
  hmac_sha256 := fun key msg => "hmac(" +:+ key +:+ "," +:+ msg +:+ ")";
  hex_EncodeToString := fun b => "hex(" +:+ b +:+ ")";
  base64_StdEncoding_EncodeToString := fun b => "b64(" +:+ b +:+ ")";
  url_QueryEscape := fun s => s
|}.

#[local] Instance demo_constants : Constants := {|
  ChannelTypeGemini := 24;
  ChannelStatusEnabled := 1;
  ChannelStatusAutoDisabled := 3;
  NotifyTypeChannelUpdate := "channel_update"
|}.

Definition demo_fetch : FetchSetting := {|
  EnableSSRFProtection := true;
  AllowPrivateIp := false;
  DomainFilterMode := false;
  IpFilterMode := false;
  DomainList := [];
  IpList := [];
  AllowedPorts := ["80"; "443"];
  ApplyIPFilterForDomain := true
|}.

Definition demo_settings (worker : bool) : Settings := {|
  AutomaticDisableChannelEnabled := true;
  AutomaticEnableChannelEnabled := true;
  AutomaticDisableKeywords := ["your credit balance is too low"];
  EnableWorker := worker;
  WorkerValidKey := "worker-key";
  GetFetchSetting := demo_fetch
|}.

(** The store applies every transition, the clock starts at 1.7e18 ns and
    advances by one millisecond per reading, the validator rejects URLs
    without ["https://"], and every request is answered with 200. *)
#[local] Instance demo_collaborators : Collaborators := {|
  AcSearch := fun text dict _ =>
    (existsb (strings.Contains text) dict, []);
  UpdateChannelStatus := fun _ _ _ _ => true;
  time_Now := fun n => 1700000000123456789 + Z.of_nat n * 1000000;
  json_Marshal_DingTalk := fun p => inr ("dingtalk:" +:+ Markdown_Text p);
  json_Marshal_Webhook := fun p => inr ("generic:" +:+ wp_Content p);
  ValidateURLWithFetchSetting := fun url _ =>
    if String.prefix "https://" url then None
    else Some "scheme not allowed";
  http_NewRequest_err := fun _ _ => None;
  client_Do := fun _ => inr 200;
  DoWorkerRequest := fun _ => inr 200
|}.

(** Collaborators on a bad day: the generic payload cannot be encoded, no
    request can be built, the worker relay is unreachable and the
    destination answers 500. *)
Definition failing_collaborators : Collaborators := {|
  AcSearch := fun _ _ _ => (false, []);
  UpdateChannelStatus := fun _ _ _ _ => false;
  time_Now := fun n => 1700000000123456789 + Z.of_nat n * 1000000;
  json_Marshal_DingTalk := fun p => inr ("dingtalk:" +:+ Markdown_Text p);
  json_Marshal_Webhook := fun _ => inl "json: unsupported type";
  ValidateURLWithFetchSetting := fun _ _ => None;
  http_NewRequest_err := fun _ _ => Some "invalid URL escape";
  client_Do := fun _ => inr 500;
  DoWorkerRequest := fun _ => inl "connection refused"
|}.

(** An upstream error that every later rule would match: status 401, code
    [invalid_api_key], type [insufficient_quota], a message with a disable
    keyword; flagged skip-retry and not channel-level. *)
Definition demo_skip_error : NewAPIError := {|
  IsChannelError := false;
  IsSkipRetryError := true;
  StatusCode := 401;
  ToOpenAIError := {| Code := "invalid_api_key"; Type_ := "insufficient_quota" |};
  Error := "Your credit balance is too low"
|}.

(** A plain 403 that matches no other rule. *)
Definition demo_forbidden_error : NewAPIError := {|
  IsChannelError := false;
  IsSkipRetryError := false;
  StatusCode := 403;
  ToOpenAIError := {| Code := "bad_response_status_code"; Type_ := "upstream_error" |};
  Error := "Forbidden"
|}.

Definition demo_notify : dto.Notify := {|
  dto.Type_ := "quota_exceed";
  dto.Title := "Quota";
  dto.Content := "a %s b %s";
  dto.Values := ["x%s"; "y"]
|}.

(** One verb and one value. *)
Definition demo_quota_notify : dto.Notify := {|
  dto.Type_ := "quota_exceed";
  dto.Title := "Quota";
  dto.Content := "quota of %s used up";
  dto.Values := ["alice"]
|}.

(** The destination an event addresses, when it has one. *)
Definition event_url (ev : Event) : option string :=
  match ev with
  | EvValidateURL url _ => Some url
  | EvNewRequest _ url _ => Some url
  | EvClientDo req => Some (http.URL req)
  | EvDoWorkerRequest req => Some (URL req)
  | _ => None
  end.

(** The body an event carries, when it has one. *)
Definition event_body (ev : Event) : option string :=
  match ev with
  | EvNewRequest _ _ body => Some body
  | EvClientDo req => Some (http.Body req)
  | EvDoWorkerRequest req => Some (Body req)
  | _ => None
  end.

(** * Properties *)

(** ** Strings and decimal numerals *)

Example itoa_examples :
  itoa 0 = "0" /\ itoa 5 = "5" /\ itoa (-15) = "-15" /\ itoa 1203 = "1203".
Proof. repeat split; reflexivity. Qed.

Lemma itoa_inj (a b : Z) : itoa a = itoa b -> a = b.
Proof.
  unfold itoa. intros E.
  apply (f_equal NilEmpty.int_of_string) in E.
  rewrite !NilEmpty.isi in E.
  injection E as E.
  apply (f_equal Z.of_int) in E.
  by rewrite !DecimalZ.of_to in E.
Qed.

Lemma uint_no_underscore (d : Decimal.uint) :
  underscore ∉ list_ascii_of_string (NilEmpty.string_of_uint d).
Proof.
  induction d; simpl; [apply not_elem_of_nil | ..];
    (apply not_elem_of_cons; split; [discriminate | assumption]).
Qed.

Lemma itoa_no_underscore (n : Z) :
  underscore ∉ list_ascii_of_string (itoa n).
Proof.
  unfold itoa. destruct (Z.to_int n) as [d | d]; simpl.
  - apply uint_no_underscore.
  - apply not_elem_of_cons; split; [discriminate | apply uint_no_underscore].
Qed.

Lemma append_cons (c : ascii) (s t : string) :
  String c s +:+ t = String c (s +:+ t).
Proof. reflexivity. Qed.

Lemma append_nil_l (s : string) : "" +:+ s = s.
Proof. reflexivity. Qed.

Lemma append_cancel_l (p s t : string) : p +:+ s = p +:+ t -> s = t.
Proof.
  induction p as [| c p IH]; simpl; [done |].
  intros E. injection E as E. by apply IH.
Qed.

(** Two strings without the separator, each followed by the separator and
    a rest, are equal only piecewise. *)
Lemma append_separator_inj (a b x y : string) :
  underscore ∉ list_ascii_of_string a ->
  underscore ∉ list_ascii_of_string b ->
  a +:+ String underscore x = b +:+ String underscore y ->
  a = b /\ x = y.
Proof.
  revert b. induction a as [| c a IH]; intros [| c' b] Ha Hb E; simpl in *.
  - by injection E as ->.
  - injection E as E _. subst c'.
    exfalso. apply Hb. apply elem_of_cons. by left.
  - injection E as E _. subst c.
    exfalso. apply Ha. apply elem_of_cons. by left.
  - injection E as -> E.
    apply not_elem_of_cons in Ha as [_ Ha].
    apply not_elem_of_cons in Hb as [_ Hb].
    destruct (IH b Ha Hb E) as [-> ->]. done.
Qed.

Lemma prefix_spec (p s : string) :
  String.prefix p s = true <-> exists post, s = p +:+ post.
Proof.
  revert s. induction p as [| c p IH]; intros s; simpl.
  - destruct s; split; eauto.
  - destruct s as [| c' s]; simpl.
    + split; [discriminate | intros [post E]; discriminate].
    + destruct (Ascii.ascii_dec c c') as [-> | Hne].
      * rewrite IH. split; intros [post E]; exists post;
          rewrite append_cons in *; congruence.
      * split; [discriminate |].
        intros [post E]. rewrite append_cons in E. congruence.
Qed.

Lemma Contains_unfold (s sub : string) :
  strings.Contains s sub =
  String.prefix sub s
  || match s with
     | EmptyString => false
     | String _ rest => strings.Contains rest sub
     end.
Proof. destruct s; unfold strings.Contains; by destruct (String.prefix _ _). Qed.

(** [strings.Contains] finds exactly the strings that occur somewhere. *)
Lemma Contains_spec (s sub : string) :
  strings.Contains s sub = true <-> exists pre post, s = pre +:+ sub +:+ post.
Proof.
  induction s as [| c s IH]; rewrite Contains_unfold, orb_true_iff, prefix_spec.
  - split.
    + intros [[post E] | ?]; [| done]. by exists "", post.
    + intros (pre & post & E). left. destruct pre as [| c' pre].
      * by exists post.
      * rewrite append_cons in E. discriminate.
  - rewrite IH. split.
    + intros [[post E] | (pre & post & ->)].
      * by exists "", post.
      * by exists (String c pre), post.
    + intros (pre & post & E). destruct pre as [| c' pre].
      * left. by exists post.
      * right. rewrite append_cons in E. injection E as -> ->. eauto.
Qed.

Lemma switch_case_spec (x : string) (cases : list string) :
  switch_case x cases = true <-> x ∈ cases.
Proof.
  unfold switch_case. rewrite existsb_exists, list_elem_of_In. split.
  - intros (y & Hy & E). apply String.eqb_eq in E. by subst.
  - intros Hx. exists x. split; [done | apply String.eqb_refl].
Qed.

Lemma switch_case_false (x : string) (cases : list string) :
  x ∉ cases -> switch_case x cases = false.
Proof.
  intros Hx. destruct (switch_case x cases) eqn:E; [| done].
  apply switch_case_spec in E. done.
Qed.

(** ** The error classifier *)

Section Classifier.
Context {K : Constants} {cfg : Settings} {lib : GoLib} {ext : Collaborators}.

(** The rules in the order the code tests them, as one equation. *)
Lemma ShouldDisableChannel_rules (channelType : Z) (err : NewAPIError) :
  ShouldDisableChannel channelType (Some err) =
  AutomaticDisableChannelEnabled
  && (IsChannelError err
      || negb (IsSkipRetryError err)
         && ((StatusCode err =? 401)%Z
             || (StatusCode err =? 403)%Z && (channelType =? ChannelTypeGemini)%Z
             || switch_case (Code (ToOpenAIError err)) disable_codes
             || switch_case (Type_ (ToOpenAIError err)) disable_types
             || (AcSearch (strings_ToLower (Error err))
                   AutomaticDisableKeywords true).1)).
Proof.
  unfold ShouldDisableChannel, StatusUnauthorized, StatusForbidden.
  destruct AutomaticDisableChannelEnabled; [| done].
  destruct (IsChannelError err); [done |].
  destruct (IsSkipRetryError err); [done |].
  destruct (StatusCode err =? 401)%Z; [done |].
  destruct ((StatusCode err =? 403)%Z && (channelType =? ChannelTypeGemini)%Z);
    [done |].
  destruct (switch_case (Code _) _); [done |].
  destruct (switch_case (Type_ _) _); [done |].
  by destruct (AcSearch _ _ _).
Qed.

Lemma ShouldDisableChannel_nil (channelType : Z) :
  ShouldDisableChannel channelType None = false.
Proof. unfold ShouldDisableChannel. by destruct AutomaticDisableChannelEnabled. Qed.

End Classifier.

(** C1. An error flagged skip-retry is never disable-worthy unless it is
    also flagged channel-level: for every channel type, status code,
    normalized code and type, message and keyword list, the verdict on a
    skip-retry error is [false] when it is not channel-level, and it is
    [true] when it is channel-level and the automatic-disable switch is on,
    since the channel-level rule is tested first. *)
Theorem skip_retry_vetoes_later_rules {K : Constants} {cfg : Settings}
    {lib : GoLib} {ext : Collaborators} (channelType : Z) (err : NewAPIError) :
  IsSkipRetryError err = true ->
  ShouldDisableChannel channelType (Some err) =
  AutomaticDisableChannelEnabled && IsChannelError err.
Proof.
  intros Hskip. rewrite ShouldDisableChannel_rules, Hskip. simpl.
  by rewrite orb_false_r.
Qed.

Lemma skip_retry_vetoes_later_rules_witness :
  IsSkipRetryError demo_skip_error = true
  /\ StatusCode demo_skip_error = 401
  /\ @ShouldDisableChannel demo_constants (demo_settings false) demo_golib
       demo_collaborators 24 (Some demo_skip_error) = false.
Proof.
  split; [reflexivity |]. split; [reflexivity |].
  exact (@skip_retry_vetoes_later_rules demo_constants (demo_settings false)
           demo_golib demo_collaborators 24 demo_skip_error eq_refl).
Defined.

(** C4. With the automatic-disable switch on, an error with status 403 that
    is neither channel-level nor skip-retry and matches no code, type or
    keyword rule disables the channel exactly when the channel type is
    Gemini. *)
Theorem forbidden_disables_only_gemini {K : Constants} {cfg : Settings}
    {lib : GoLib} {ext : Collaborators} (channelType : Z) (err : NewAPIError) :
  AutomaticDisableChannelEnabled = true ->
  StatusCode err = 403 ->
  IsChannelError err = false ->
  IsSkipRetryError err = false ->
  Code (ToOpenAIError err) ∉ disable_codes ->
  Type_ (ToOpenAIError err) ∉ disable_types ->
  (AcSearch (strings_ToLower (Error err)) AutomaticDisableKeywords true).1
    = false ->
  ShouldDisableChannel channelType (Some err) =
  (channelType =? ChannelTypeGemini)%Z.
Proof.
  intros Hon Hst Hch Hskip Hcode Htype Hkw.
  rewrite ShouldDisableChannel_rules, Hon, Hst, Hch, Hskip, Hkw.
  rewrite (switch_case_false _ _ Hcode), (switch_case_false _ _ Htype).
  simpl. by rewrite !orb_false_r.
Qed.

Ltac not_in_literal_list :=
  repeat (apply not_elem_of_cons; split; [discriminate |]);
  apply not_elem_of_nil.

Lemma forbidden_disables_only_gemini_witness :
  StatusCode demo_forbidden_error = 403
  /\ @ShouldDisableChannel demo_constants (demo_settings false) demo_golib
       demo_collaborators 24 (Some demo_forbidden_error) = true
  /\ @ShouldDisableChannel demo_constants (demo_settings false) demo_golib
       demo_collaborators 1 (Some demo_forbidden_error) = false.
Proof.
  split; [reflexivity |].
  split.
  - apply (@forbidden_disables_only_gemini demo_constants
             (demo_settings false) demo_golib demo_collaborators 24
             demo_forbidden_error);
      try reflexivity; not_in_literal_list.
  - apply (@forbidden_disables_only_gemini demo_constants
             (demo_settings false) demo_golib demo_collaborators 1
             demo_forbidden_error);
      try reflexivity; not_in_literal_list.
Defined.

(** C2. [ShouldEnableChannel] answers [true] if and only if the
    automatic-enable switch is on, the error is nil and the stored status is
    [ChannelStatusAutoDisabled]; so it is [false] for every non-nil error
    whatever the status, and with a nil error it is [false] for every status
    other than [ChannelStatusAutoDisabled]. *)
Theorem ShouldEnableChannel_iff {K : Constants} {cfg : Settings}
    (newAPIError : option NewAPIError) (status : Z) :
  (ShouldEnableChannel newAPIError status = true <->
   AutomaticEnableChannelEnabled = true
   /\ newAPIError = None
   /\ status = ChannelStatusAutoDisabled)
  /\ (forall err, ShouldEnableChannel (Some err) status = false)
  /\ (status <> ChannelStatusAutoDisabled ->
      ShouldEnableChannel None status = false).
Proof.
  unfold ShouldEnableChannel. repeat split.
  - by destruct AutomaticEnableChannelEnabled.
  - destruct AutomaticEnableChannelEnabled, newAPIError; done.
  - destruct AutomaticEnableChannelEnabled, newAPIError; try done.
    destruct (Z.eqb_spec status ChannelStatusAutoDisabled); done.
  - intros (-> & -> & ->). simpl. by rewrite Z.eqb_refl.
  - intros err. by destruct AutomaticEnableChannelEnabled.
  - intros Hne. destruct AutomaticEnableChannelEnabled; [| done]. simpl.
    destruct (Z.eqb_spec status ChannelStatusAutoDisabled); done.
Qed.

(** ** The notify-type key *)

(** C9. The key is the prefix, the channel id and the status in decimal,
    joined by underscores, and two different pairs of channel id and status
    never get the same key. *)
Theorem formatNotifyType_injective {K : Constants} (c1 s1 c2 s2 : Z) :
  (c1, s1) <> (c2, s2) ->
  formatNotifyType c1 s1
    = NotifyTypeChannelUpdate +:+ "_" +:+ itoa c1 +:+ "_" +:+ itoa s1
  /\ formatNotifyType c1 s1 <> formatNotifyType c2 s2.
Proof.
  intros Hne. split; [reflexivity |].
  unfold formatNotifyType. intros E.
  apply append_cancel_l in E. rewrite !append_cons, !append_nil_l in E.
  injection E as E.
  apply append_separator_inj in E as [Ec Es];
    [| apply itoa_no_underscore | apply itoa_no_underscore].
  apply itoa_inj in Ec, Es. congruence.
Qed.

Lemma formatNotifyType_injective_witness :
  ((5, 3) : Z * Z) <> (5, 1)
  /\ @formatNotifyType demo_constants 5 3 = "channel_update_5_3"
  /\ @formatNotifyType demo_constants 5 3 <> @formatNotifyType demo_constants 5 1.
Proof.
  assert (Hne : ((5, 3) : Z * Z) <> (5, 1)) by discriminate.
  split; [exact Hne |].
  exact (@formatNotifyType_injective demo_constants 5 3 5 1 Hne).
Defined.

Example formatNotifyType_keys :
  @formatNotifyType demo_constants 5 1 = "channel_update_5_1"
  /\ @formatNotifyType demo_constants 6 3 = "channel_update_6_3"
  /\ @formatNotifyType demo_constants (-7) 3 = "channel_update_-7_3".
Proof. repeat split; reflexivity. Qed.

(** ** The disable transition *)

(** C3. With [AutoBan] false, [DisableChannel] writes two log lines and
    returns: the store is not called, no notification is handed to the
    router and the clock is not read, whatever the error and the reason. *)
Theorem DisableChannel_without_AutoBan_only_logs {K : Constants}
    {lib : GoLib} {ext : Collaborators}
    (channelError : ChannelError) (reason : string) (w : World) :
  AutoBan channelError = false ->
  exists line1 line2,
    DisableChannel channelError reason w =
      (Ok tt, {| ticks := ticks w;
                 trace := trace w ++ [EvSysLog line1; EvSysLog line2] |})
    /\ List.filter is_store_call [EvSysLog line1; EvSysLog line2] = []
    /\ List.filter is_notification [EvSysLog line1; EvSysLog line2] = [].
Proof.
  intros Hban. eexists _, _. split; [| split; reflexivity].
  unfold DisableChannel. rewrite Hban.
  unfold SysLog, emit, mbind, IO_bind. simpl.
  by rewrite <- app_assoc.
Qed.

Lemma DisableChannel_without_AutoBan_only_logs_witness :
  AutoBan (NewChannelError 5 1 "ch" false "" false "") = false
  /\ List.filter (fun ev => is_store_call ev || is_notification ev)
       (trace (run (@DisableChannel demo_constants demo_golib
                      demo_collaborators
                      (NewChannelError 5 1 "ch" false "" false "")
                      "quota")).2) = [].
Proof.
  split; [reflexivity |].
  destruct (@DisableChannel_without_AutoBan_only_logs demo_constants
              demo_golib demo_collaborators
              (NewChannelError 5 1 "ch" false "" false "") "quota" world0
              eq_refl) as (line1 & line2 & E & _).
  unfold run. rewrite E. reflexivity.
Defined.

(** With [AutoBan] true the store is asked, and a transition that it
    reports as applied is followed by one notification under the key of
    the channel and [ChannelStatusAutoDisabled]. *)
Example DisableChannel_with_AutoBan :
  match trace (run (@DisableChannel demo_constants demo_golib
                      demo_collaborators
                      (NewChannelError 5 1 "ch" false "" true "")
                      "quota")).2 with
  | [EvSysLog _; EvUpdateChannelStatus 5 "" 3 "quota";
     EvNotifyRootUser "channel_update_5_3" _ _] => True
  | _ => False
  end.
Proof. exact I. Qed.

(** ** Running the webhook transport *)

Section WebhookRuns.
Context {K : Constants} {cfg : Settings} {lib : GoLib} {ext : Collaborators}.

Lemma substituteValues_fold (content : string) (values : list Value) :
  substituteValues content values = fold_left fmt_Sprintf values content.
Proof.
  revert content. induction values as [| v values IH]; intros content.
  - reflexivity.
  - simpl. apply IH.
Qed.

Lemma formatWebhook_run (webhookURL secret : string) (data : dto.Notify)
    (w : World) :
  formatWebhook webhookURL secret data w =
  let content := substituteValues (dto.Content data) (dto.Values data) in
  if isDingTalkWebhook webhookURL then
    match json_Marshal_DingTalk (dingTalkPayload data content) with
    | inl err =>
        (Fail ("failed to marshal dingtalk webhook payload: " +:+ err),
         tick w)
    | inr payloadBytes =>
        if String.eqb secret ""
        then (Ok (payloadBytes, webhookURL), tick w)
        else (Ok (payloadBytes,
                  signedDingTalkURL webhookURL secret
                    (time_Now (S (ticks w)))),
              tick (tick w))
    end
  else
    match json_Marshal_Webhook
            (webhookPayload data content (Unix (time_Now (ticks w)))) with
    | inl err => (Fail ("failed to marshal webhook payload: " +:+ err), tick w)
    | inr payloadBytes => (Ok (payloadBytes, webhookURL), tick w)
    end.
Proof.
  unfold formatWebhook, mbind, IO_bind, time_Now_io. simpl.
  destruct (isDingTalkWebhook webhookURL).
  - destruct (json_Marshal_DingTalk _); [reflexivity |].
    by destruct (String.eqb secret "").
  - by destruct (json_Marshal_Webhook _).
Qed.

(** Formatting records no event. *)
Lemma formatWebhook_trace (webhookURL secret : string) (data : dto.Notify)
    (w : World) :
  trace (formatWebhook webhookURL secret data w).2 = trace w.
Proof.
  rewrite formatWebhook_run. simpl.
  destruct (isDingTalkWebhook webhookURL).
  - destruct (json_Marshal_DingTalk _); [reflexivity |].
    by destruct (String.eqb secret "").
  - by destruct (json_Marshal_Webhook _).
Qed.

Lemma checkStatus_world (statusCode : Z) (w : World) :
  (checkStatus statusCode w).2 = w.
Proof.
  unfold checkStatus. by destruct ((statusCode <? 200)%Z || _).
Qed.

Lemma sendThroughWorker_trace (webhookURL secret payloadBytes
    finalWebhookURL : string) (w : World) :
  trace (sendThroughWorker webhookURL secret payloadBytes
           finalWebhookURL w).2 =
  (trace w ++ [EvDoWorkerRequest
                 (buildWorkerRequest webhookURL secret payloadBytes
                    finalWebhookURL)])%list.
Proof.
  unfold sendThroughWorker, DoWorkerRequest_io, emit, mbind, IO_bind, mret,
    IO_ret. simpl.
  destruct (DoWorkerRequest _); [reflexivity |].
  by rewrite checkStatus_world.
Qed.

Lemma sendDirect_trace (webhookURL secret payloadBytes
    finalWebhookURL : string) (w : World) :
  trace (sendDirect webhookURL secret payloadBytes finalWebhookURL w).2 =
  (trace w
   ++ direct_events webhookURL secret payloadBytes finalWebhookURL)%list.
Proof.
  unfold sendDirect, direct_events, ValidateURL_io, http_NewRequest,
    client_Do_io, emit, mbind, IO_bind, mret, IO_ret. simpl.
  destruct (ValidateURLWithFetchSetting _ _); [reflexivity |]. simpl.
  destruct (http_NewRequest_err _ _); simpl.
  - by rewrite <- app_assoc.
  - destruct (client_Do _); simpl; [by rewrite <- !app_assoc |].
    rewrite checkStatus_world. simpl. by rewrite <- !app_assoc.
Qed.

Lemma sendDirect_rejected (webhookURL secret payloadBytes
    finalWebhookURL err : string) (w : World) :
  ValidateURLWithFetchSetting finalWebhookURL GetFetchSetting = Some err ->
  sendDirect webhookURL secret payloadBytes finalWebhookURL w =
  (Fail ("request reject: " +:+ err),
   {| ticks := ticks w;
      trace := (trace w
                ++ [EvValidateURL finalWebhookURL GetFetchSetting])%list |}).
Proof.
  intros Hrej.
  unfold sendDirect, ValidateURL_io, emit, mbind, IO_bind, mret, IO_ret.
  simpl. by rewrite Hrej.
Qed.

Lemma SendWebhookNotify_run (webhookURL secret : string)
    (data : dto.Notify) (w : World) :
  SendWebhookNotify webhookURL secret data w =
  match formatWebhook webhookURL secret data w with
  | (Ok (payloadBytes, finalWebhookURL), w') =>
      if EnableWorker
      then sendThroughWorker webhookURL secret payloadBytes
             finalWebhookURL w'
      else sendDirect webhookURL secret payloadBytes finalWebhookURL w'
  | (Fail e, w') => (Fail e, w')
  end.
Proof.
  unfold SendWebhookNotify, mbind, IO_bind.
  destruct (formatWebhook webhookURL secret data w) as [[[p f] | e] w'];
    [by destruct EnableWorker | reflexivity].
Qed.

(** The events of one delivery, once the payload is formatted. *)
Lemma SendWebhookNotify_events (webhookURL secret : string)
    (data : dto.Notify) (payloadBytes finalWebhookURL : string) :
  (run (formatWebhook webhookURL secret data)).1
    = Ok (payloadBytes, finalWebhookURL) ->
  trace (run (SendWebhookNotify webhookURL secret data)).2 =
  if EnableWorker
  then [EvDoWorkerRequest
          (buildWorkerRequest webhookURL secret payloadBytes
             finalWebhookURL)]
  else direct_events webhookURL secret payloadBytes finalWebhookURL.
Proof.
  unfold run. intros Hfmt. rewrite SendWebhookNotify_run.
  pose proof (formatWebhook_trace webhookURL secret data world0) as Htr.
  destruct (formatWebhook webhookURL secret data world0) as [r w'].
  simpl in Hfmt, Htr. subst r.
  destruct EnableWorker.
  - by rewrite sendThroughWorker_trace, Htr.
  - by rewrite sendDirect_trace, Htr.
Qed.

(** A delivery whose payload cannot be encoded records no event. *)
Lemma SendWebhookNotify_events_unformatted (webhookURL secret : string)
    (data : dto.Notify) (e : string) :
  (run (formatWebhook webhookURL secret data)).1 = Fail e ->
  run (SendWebhookNotify webhookURL secret data) =
  (Fail e, (run (formatWebhook webhookURL secret data)).2)
  /\ trace (run (SendWebhookNotify webhookURL secret data)).2 = [].
Proof.
  unfold run. intros Hfmt. rewrite SendWebhookNotify_run.
  pose proof (formatWebhook_trace webhookURL secret data world0) as Htr.
  destruct (formatWebhook webhookURL secret data world0) as [r w'].
  simpl in Hfmt, Htr. subst r. done.
Qed.

End WebhookRuns.

Section WebhookFacts.
Context {K : Constants} {cfg : Settings} {lib : GoLib} {ext : Collaborators}.

(** What a successful formatting returns. *)
Lemma formatWebhook_ok (webhookURL secret : string) (data : dto.Notify)
    (payloadBytes finalWebhookURL : string) :
  (run (formatWebhook webhookURL secret data)).1
    = Ok (payloadBytes, finalWebhookURL) ->
  let content := substituteValues (dto.Content data) (dto.Values data) in
  if isDingTalkWebhook webhookURL
  then json_Marshal_DingTalk (dingTalkPayload data content)
         = inr payloadBytes
       /\ finalWebhookURL =
          (if String.eqb secret "" then webhookURL
           else signedDingTalkURL webhookURL secret (time_Now 1))
  else json_Marshal_Webhook
         (webhookPayload data content (Unix (time_Now 0)))
         = inr payloadBytes
       /\ finalWebhookURL = webhookURL.
Proof.
  unfold run. rewrite formatWebhook_run. simpl.
  destruct (isDingTalkWebhook webhookURL).
  - destruct (json_Marshal_DingTalk _); [discriminate |].
    destruct (String.eqb secret ""); simpl; intros [= -> ->]; done.
  - destruct (json_Marshal_Webhook _); [discriminate |].
    simpl. intros [= -> ->]. done.
Qed.

Lemma setRequestHeaders_keeps (webhookURL secret payloadBytes : string)
    (req : http.Request) :
  http.URL (setRequestHeaders webhookURL secret payloadBytes req)
    = http.URL req
  /\ http.Body (setRequestHeaders webhookURL secret payloadBytes req)
     = http.Body req
  /\ http.Method (setRequestHeaders webhookURL secret payloadBytes req)
     = http.Method req.
Proof.
  unfold setRequestHeaders.
  by destruct (negb (String.eqb secret "") && _).
Qed.

(** Every call of a delivery addresses the final URL and carries the
    formatted payload. *)
Lemma delivery_events_address (webhookURL secret payloadBytes
    finalWebhookURL : string) :
  Forall (fun ev => event_url ev = Some finalWebhookURL
                    /\ forall body, event_body ev = Some body ->
                                    body = payloadBytes)
    (if EnableWorker
     then [EvDoWorkerRequest
             (buildWorkerRequest webhookURL secret payloadBytes
                finalWebhookURL)]
     else direct_events webhookURL secret payloadBytes finalWebhookURL).
Proof.
  destruct EnableWorker.
  - repeat constructor. simpl. congruence.
  - unfold direct_events. constructor; [split; [done | discriminate] |].
    destruct (ValidateURLWithFetchSetting _ _); [constructor |].
    constructor; [split; [done | simpl; congruence] |].
    destruct (http_NewRequest_err _ _); [constructor |].
    repeat constructor; simpl.
    + f_equal. apply setRequestHeaders_keeps.
    + intros body [= <-]. apply setRequestHeaders_keeps.
Qed.

End WebhookFacts.

(** ** Placeholder substitution *)

(** Once the payload is encoded, formatting returns it with the final URL. *)
Lemma formatWebhook_encoded {K : Constants} {lib : GoLib}
    {ext : Collaborators}
    (webhookURL secret : string) (data : dto.Notify) (payloadBytes : string) :
  (if isDingTalkWebhook webhookURL
   then json_Marshal_DingTalk
          (dingTalkPayload data
             (substituteValues (dto.Content data) (dto.Values data)))
   else json_Marshal_Webhook
          (webhookPayload data
             (substituteValues (dto.Content data) (dto.Values data))
             (Unix (time_Now 0))))
  = inr payloadBytes ->
  (run (formatWebhook webhookURL secret data)).1 =
  Ok (payloadBytes,
      if isDingTalkWebhook webhookURL && negb (String.eqb secret "")
      then signedDingTalkURL webhookURL secret (time_Now 1)
      else webhookURL).
Proof.
  intros Henc. unfold run. rewrite formatWebhook_run. simpl.
  destruct (isDingTalkWebhook webhookURL); rewrite Henc; simpl.
  - by destruct (String.eqb secret "").
  - reflexivity.
Qed.

(** C5. The content is a left fold of the one-operand formatter over the
    values, in order, each step taking the string produced so far as the
    template; no value leaves the content as it is and one value is one
    substitution. This content is what is delivered: it is the [content]
    field of the generic payload and the body of the chat-bot text, and
    whenever the payload built from it is encoded, the delivery hands the
    encoding out: in worker mode as the body of the one descriptor passed
    to the relay, in direct mode, once the validator accepts the URL and
    the request is built, as the body of the request that is sent. No
    request of a delivery carries any other body. *)
Theorem content_is_folded_over_values {K : Constants} {cfg : Settings}
    {lib : GoLib} {ext : Collaborators}
    (webhookURL secret : string) (data : dto.Notify) :
  let content := fold_left fmt_Sprintf (dto.Values data) (dto.Content data) in
  let finalWebhookURL :=
    if isDingTalkWebhook webhookURL && negb (String.eqb secret "")
    then signedDingTalkURL webhookURL secret (time_Now 1)
    else webhookURL in
  let body :=
    strings.ReplaceAll (strings.ReplaceAll content (CR +:+ LF) LF)
      LF ("  " +:+ LF) in
  substituteValues (dto.Content data) (dto.Values data) = content
  /\ (dto.Values data = [] -> content = dto.Content data)
  /\ (forall v, dto.Values data = [v] ->
                content = fmt_Sprintf (dto.Content data) v)
  /\ wp_Content (webhookPayload data content (Unix (time_Now 0))) = content
  /\ Markdown_Text (dingTalkPayload data content) =
     (if negb (String.eqb (dto.Title data) "")
         && negb (strings.HasPrefix (dto.Type_ data) NotifyTypeChannelUpdate)
      then "### " +:+ dto.Title data +:+ LF +:+ LF +:+ body
      else body)
  /\ Forall (fun ev => forall body, event_body ev = Some body ->
               if isDingTalkWebhook webhookURL
               then json_Marshal_DingTalk (dingTalkPayload data content)
                    = inr body
               else json_Marshal_Webhook
                      (webhookPayload data content (Unix (time_Now 0)))
                    = inr body)
       (trace (run (SendWebhookNotify webhookURL secret data)).2)
  /\ forall payloadBytes,
       (if isDingTalkWebhook webhookURL
        then json_Marshal_DingTalk (dingTalkPayload data content)
        else json_Marshal_Webhook
               (webhookPayload data content (Unix (time_Now 0))))
       = inr payloadBytes ->
       (EnableWorker = true ->
        exists req,
          trace (run (SendWebhookNotify webhookURL secret data)).2
            = [EvDoWorkerRequest req]
          /\ URL req = finalWebhookURL
          /\ Body req = payloadBytes)
       /\ (EnableWorker = false ->
           ValidateURLWithFetchSetting finalWebhookURL GetFetchSetting
             = None ->
           http_NewRequest_err MethodPost finalWebhookURL = None ->
           exists req,
             trace (run (SendWebhookNotify webhookURL secret data)).2
               = [EvValidateURL finalWebhookURL GetFetchSetting;
                  EvNewRequest MethodPost finalWebhookURL payloadBytes;
                  EvClientDo req]
             /\ http.URL req = finalWebhookURL
             /\ http.Body req = payloadBytes).
Proof.
  intros content finalWebhookURL body. subst content finalWebhookURL body.
  rewrite <- substituteValues_fold.
  split; [reflexivity |].
  split; [by intros -> |].
  split; [by intros v -> |].
  split; [reflexivity |].
  split.
  { unfold dingTalkPayload. cbn [Markdown_Text].
    by destruct (strings.HasPrefix _ _), (String.eqb (dto.Title data) ""). }
  split.
  { destruct (run (formatWebhook webhookURL secret data)).1
      as [[payloadBytes finalWebhookURL] | e] eqn:Hfmt.
    - rewrite (SendWebhookNotify_events _ _ _ _ _ Hfmt).
      apply formatWebhook_ok in Hfmt. simpl in Hfmt.
      eapply Forall_impl; [apply delivery_events_address |].
      intros ev [_ Hbody] body Hev. apply Hbody in Hev as ->.
      destruct (isDingTalkWebhook webhookURL); apply Hfmt.
    - apply SendWebhookNotify_events_unformatted in Hfmt as [_ ->].
      constructor. }
  intros payloadBytes Henc.
  apply (formatWebhook_encoded webhookURL secret) in Henc.
  rewrite (SendWebhookNotify_events _ _ _ _ _ Henc).
  split.
  - intros ->. eexists. split; [reflexivity |]. split; reflexivity.
  - intros -> Hval Hnew. unfold direct_events. rewrite Hval, Hnew.
    eexists. split; [reflexivity |].
    split; apply setRequestHeaders_keeps.
Qed.

Lemma content_is_folded_over_values_witness :
  fold_left fmt_Sprintf (dto.Values demo_quota_notify)
    (dto.Content demo_quota_notify)
  = "quota of alice used up"
  /\ map event_body
       (trace (run (@SendWebhookNotify demo_constants (demo_settings true)
                      demo_golib demo_collaborators
                      "https://example.com/hook" ""
                      demo_quota_notify)).2)
     = [Some "generic:quota of alice used up"]
  /\ map event_body
       (trace (run (@SendWebhookNotify demo_constants (demo_settings false)
                      demo_golib demo_collaborators
                      "https://example.com/hook" ""
                      demo_quota_notify)).2)
     = [None; Some "generic:quota of alice used up";
        Some "generic:quota of alice used up"].
Proof.
  split; [reflexivity |].
  split.
  - destruct (@content_is_folded_over_values demo_constants
                (demo_settings true) demo_golib demo_collaborators
                "https://example.com/hook" ""
                demo_quota_notify)
      as (_ & _ & _ & _ & _ & _ & Hsent).
    destruct (Hsent "generic:quota of alice used up" eq_refl)
      as [Hworker _].
    destruct (Hworker eq_refl) as (req & -> & _ & Hbody).
    simpl. by rewrite Hbody.
  - destruct (@content_is_folded_over_values demo_constants
                (demo_settings false) demo_golib demo_collaborators
                "https://example.com/hook" ""
                demo_quota_notify)
      as (_ & _ & _ & _ & _ & _ & Hsent).
    destruct (Hsent "generic:quota of alice used up" eq_refl)
      as [_ Hdirect].
    destruct (Hdirect eq_refl eq_refl eq_refl) as (req & -> & _ & Hbody).
    simpl. by rewrite Hbody.
Defined.

(** The string produced by one substitution is the template of the next:
    a verb brought in by the first value is filled by the second. A content
    without values is left as it is, verbs included, and a value without a
    verb to fill is reported the way [fmt.Sprintf] does. *)
Example substitution_rereads_its_output :
  substituteValues "%s" ["%s"; "y"] = "y"
  /\ substituteValues "100%s" [] = "100%s"
  /\ substituteValues "no verb" ["v"] = "no verb%!(EXTRA string=v)".
Proof. repeat split; reflexivity. Qed.

(** ** Choice of the schema *)

(** C6, as stated, fails: the detection reads the whole URL, not its host.
    A URL whose host is [example.com] and whose query names the chat-bot
    domain is taken for a chat-bot destination and gets the chat-bot
    schema, while the same host with another path and query does not. *)
Lemma detection_reads_the_whole_url :
  url_host "https://example.com/hook?from=oapi.dingtalk.com" = "example.com"
  /\ host_is_chat_bot "https://example.com/hook?from=oapi.dingtalk.com" = false
  /\ isDingTalkWebhook "https://example.com/hook?from=oapi.dingtalk.com" = true
  /\ (run (@formatWebhook demo_constants demo_golib demo_collaborators
             "https://example.com/hook?from=oapi.dingtalk.com" ""
             demo_notify)).1
     = Ok ("dingtalk:### Quota" +:+ LF +:+ LF +:+ "a xy b %s",
           "https://example.com/hook?from=oapi.dingtalk.com")
  /\ url_host "https://example.com/hook" = "example.com"
  /\ isDingTalkWebhook "https://example.com/hook" = false.
Proof. repeat split; vm_compute; reflexivity. Qed.

(** C6, amended. A destination gets the chat-bot schema exactly when the
    URL, read as a whole string, contains ["oapi.dingtalk.com"] or
    ["api.dingtalk.com"] somewhere (host, path or query), and the generic
    schema otherwise. *)
Theorem chat_bot_schema_iff_url_contains_marker {K : Constants}
    {lib : GoLib} {ext : Collaborators}
    (webhookURL secret : string) (data : dto.Notify) (w : World) :
  (isDingTalkWebhook webhookURL = true <->
   (exists pre post, webhookURL = pre +:+ "oapi.dingtalk.com" +:+ post)
   \/ (exists pre post, webhookURL = pre +:+ "api.dingtalk.com" +:+ post))
  /\ match (formatWebhook webhookURL secret data w).1 with
     | Ok (payloadBytes, _) =>
         let content :=
           substituteValues (dto.Content data) (dto.Values data) in
         if isDingTalkWebhook webhookURL
         then json_Marshal_DingTalk (dingTalkPayload data content)
              = inr payloadBytes
         else json_Marshal_Webhook
                (webhookPayload data content (Unix (time_Now (ticks w))))
              = inr payloadBytes
     | Fail _ => True
     end.
Proof.
  split.
  - unfold isDingTalkWebhook.
    by rewrite orb_true_iff, !Contains_spec.
  - rewrite formatWebhook_run. simpl.
    destruct (isDingTalkWebhook webhookURL).
    + destruct (json_Marshal_DingTalk _); [done |].
      by destruct (String.eqb secret "").
    + by destruct (json_Marshal_Webhook _).
Qed.

(** ** Signing the chat-bot URL *)

(** C7. For a chat-bot URL whose payload is encoded, the final URL is the
    given URL when the secret is empty; otherwise it is the given URL
    followed by ["&"], when it contains a ["?"], or by ["?"], then by
    [timestamp=] and the clock reading in milliseconds, then by [&sign=]
    and the URL-escaped base64 encoding of the HMAC-SHA256, keyed by the
    secret, of that same number, a line feed and the secret. Every call of
    the delivery addresses this URL. *)
Theorem chat_bot_url_is_signed {K : Constants} {cfg : Settings}
    {lib : GoLib} {ext : Collaborators}
    (webhookURL secret : string) (data : dto.Notify)
    (payloadBytes finalWebhookURL : string) :
  isDingTalkWebhook webhookURL = true ->
  (run (formatWebhook webhookURL secret data)).1
    = Ok (payloadBytes, finalWebhookURL) ->
  let timestampMs := Z.quot (time_Now 1) 1000000 in
  let sign :=
    url_QueryEscape
      (base64_StdEncoding_EncodeToString
         (hmac_sha256 secret (itoa timestampMs +:+ LF +:+ secret))) in
  finalWebhookURL =
    (if String.eqb secret "" then webhookURL
     else webhookURL
          +:+ (if strings.Contains webhookURL "?" then "&" else "?")
          +:+ "timestamp=" +:+ itoa timestampMs +:+ "&sign=" +:+ sign)
  /\ trace (run (SendWebhookNotify webhookURL secret data)).2 <> []
  /\ Forall (fun ev => event_url ev = Some finalWebhookURL)
       (trace (run (SendWebhookNotify webhookURL secret data)).2).
Proof.
  intros Hding Hfmt timestampMs sign.
  rewrite (SendWebhookNotify_events _ _ _ _ _ Hfmt).
  apply formatWebhook_ok in Hfmt. simpl in Hfmt. rewrite Hding in Hfmt.
  destruct Hfmt as [_ ->].
  split; [| split].
  - destruct (String.eqb secret ""); [reflexivity |].
    unfold signedDingTalkURL, generateDingTalkSign.
    by destruct (strings.Contains webhookURL "?").
  - unfold direct_events. by destruct EnableWorker.
  - eapply Forall_impl; [apply delivery_events_address |].
    by intros ev [? _].
Qed.

Lemma chat_bot_url_is_signed_witness :
  isDingTalkWebhook "https://oapi.dingtalk.com/robot/send?access_token=t"
    = true
  /\ (run (@formatWebhook demo_constants demo_golib demo_collaborators
             "https://oapi.dingtalk.com/robot/send?access_token=t" "sec"
             demo_notify)).1
     = Ok ("dingtalk:### Quota" +:+ LF +:+ LF +:+ "a xy b %s",
           "https://oapi.dingtalk.com/robot/send?access_token=t"
           +:+ "&timestamp=1700000000124&sign=b64(hmac(sec,1700000000124"
           +:+ LF +:+ "sec))")
  /\ Forall
       (fun ev => event_url ev =
          Some ("https://oapi.dingtalk.com/robot/send?access_token=t"
                +:+ "&timestamp=1700000000124&sign=b64(hmac(sec,1700000000124"
                +:+ LF +:+ "sec))"))
       (trace (run (@SendWebhookNotify demo_constants (demo_settings false)
                      demo_golib demo_collaborators
                      "https://oapi.dingtalk.com/robot/send?access_token=t"
                      "sec" demo_notify)).2).
Proof.
  split; [reflexivity |]. split; [reflexivity |].
  apply (@chat_bot_url_is_signed demo_constants (demo_settings false)
           demo_golib demo_collaborators
           "https://oapi.dingtalk.com/robot/send?access_token=t" "sec"
           demo_notify
           ("dingtalk:### Quota" +:+ LF +:+ LF +:+ "a xy b %s")
           _ eq_refl eq_refl).
Defined.

Example chat_bot_url_without_query :
  (run (@formatWebhook demo_constants demo_golib demo_collaborators
          "https://api.dingtalk.com/robot" "sec" demo_notify)).1
  = Ok ("dingtalk:### Quota" +:+ LF +:+ LF +:+ "a xy b %s",
        "https://api.dingtalk.com/robot"
        +:+ "?timestamp=1700000000124&sign=b64(hmac(sec,1700000000124"
        +:+ LF +:+ "sec))")
  /\ (run (@formatWebhook demo_constants demo_golib demo_collaborators
             "https://api.dingtalk.com/robot" "" demo_notify)).1
     = Ok ("dingtalk:### Quota" +:+ LF +:+ LF +:+ "a xy b %s",
           "https://api.dingtalk.com/robot").
Proof. split; reflexivity. Qed.

(** ** The SSRF check of the direct mode *)

(** C8. In direct mode, when the validator rejects the final URL, the
    delivery returns the error ["request reject: ..."] built from the
    validator's error, and its only call is that one validation: no request
    is built, none is sent, and the validation is not repeated. *)
Theorem rejected_url_is_never_requested {K : Constants} {cfg : Settings}
    {lib : GoLib} {ext : Collaborators}
    (webhookURL secret : string) (data : dto.Notify)
    (payloadBytes finalWebhookURL err : string) :
  EnableWorker = false ->
  (run (formatWebhook webhookURL secret data)).1
    = Ok (payloadBytes, finalWebhookURL) ->
  ValidateURLWithFetchSetting finalWebhookURL GetFetchSetting = Some err ->
  (run (SendWebhookNotify webhookURL secret data)).1
    = Fail ("request reject: " +:+ err)
  /\ trace (run (SendWebhookNotify webhookURL secret data)).2
     = [EvValidateURL finalWebhookURL GetFetchSetting]
  /\ List.filter is_http_request
       (trace (run (SendWebhookNotify webhookURL secret data)).2) = [].
Proof.
  intros Hdirect Hfmt Hrej.
  assert (Hrun : run (SendWebhookNotify webhookURL secret data) =
                 (Fail ("request reject: " +:+ err),
                  {| ticks := ticks (run (formatWebhook webhookURL secret
                                            data)).2;
                     trace := [EvValidateURL finalWebhookURL
                                 GetFetchSetting] |})).
  { unfold run in *. rewrite SendWebhookNotify_run, Hdirect.
    pose proof (formatWebhook_trace webhookURL secret data world0) as Htr.
    destruct (formatWebhook webhookURL secret data world0) as [r w'].
    simpl in Hfmt, Htr. subst r.
    rewrite (sendDirect_rejected _ _ _ _ _ _ Hrej), Htr. reflexivity. }
  rewrite Hrun. done.
Qed.

Lemma rejected_url_is_never_requested_witness :
  @ValidateURLWithFetchSetting demo_golib demo_collaborators
    "http://169.254.169.254/latest" demo_fetch = Some "scheme not allowed"
  /\ (run (@SendWebhookNotify demo_constants (demo_settings false) demo_golib
             demo_collaborators "http://169.254.169.254/latest" "sec"
             demo_notify)).1
     = Fail "request reject: scheme not allowed"
  /\ trace (run (@SendWebhookNotify demo_constants (demo_settings false)
                   demo_golib demo_collaborators
                   "http://169.254.169.254/latest" "sec" demo_notify)).2
     = [EvValidateURL "http://169.254.169.254/latest" demo_fetch]
  /\ List.filter is_http_request
       (trace (run (@SendWebhookNotify demo_constants (demo_settings false)
                      demo_golib demo_collaborators
                      "http://169.254.169.254/latest" "sec" demo_notify)).2)
     = [].
Proof.
  split; [reflexivity |].
  exact (@rejected_url_is_never_requested demo_constants
           (demo_settings false) demo_golib demo_collaborators
           "http://169.254.169.254/latest" "sec" demo_notify
           "generic:a xy b %s" "http://169.254.169.254/latest"
           "scheme not allowed" eq_refl eq_refl eq_refl).
Defined.

(** ** The URL of a generic destination *)

(** C10, as stated, fails for a destination that is not a chat-bot one by
    its host but names a chat-bot domain in its path or query: the code
    takes it for a chat-bot URL, so with a secret the timestamp and the
    sign are appended to it, whatever the collaborators, and the request
    carries no [X-Webhook-Signature] header. *)
Lemma marker_in_query_url_is_modified :
  url_host "https://example.com/hook?from=oapi.dingtalk.com" = "example.com"
  /\ host_is_chat_bot "https://example.com/hook?from=oapi.dingtalk.com"
     = false
  /\ (forall (K : Constants) (lib : GoLib) (ext : Collaborators)
             (data : dto.Notify) (payloadBytes finalWebhookURL : string),
        (run (formatWebhook
                "https://example.com/hook?from=oapi.dingtalk.com" "sec"
                data)).1
          = Ok (payloadBytes, finalWebhookURL) ->
        finalWebhookURL =
          "https://example.com/hook?from=oapi.dingtalk.com"
          +:+ "&timestamp=" +:+ itoa (Z.quot (time_Now 1) 1000000)
          +:+ "&sign="
          +:+ url_QueryEscape
                (base64_StdEncoding_EncodeToString
                   (hmac_sha256 "sec"
                      (itoa (Z.quot (time_Now 1) 1000000)
                       +:+ LF +:+ "sec"))))
  /\ map event_url
       (trace (run (@SendWebhookNotify demo_constants (demo_settings false)
                      demo_golib demo_collaborators
                      "https://example.com/hook?from=oapi.dingtalk.com"
                      "sec" demo_quota_notify)).2)
     = [Some ("https://example.com/hook?from=oapi.dingtalk.com"
              +:+ "&timestamp=1700000000124"
              +:+ "&sign=b64(hmac(sec,1700000000124" +:+ LF +:+ "sec))");
        Some ("https://example.com/hook?from=oapi.dingtalk.com"
              +:+ "&timestamp=1700000000124"
              +:+ "&sign=b64(hmac(sec,1700000000124" +:+ LF +:+ "sec))");
        Some ("https://example.com/hook?from=oapi.dingtalk.com"
              +:+ "&timestamp=1700000000124"
              +:+ "&sign=b64(hmac(sec,1700000000124" +:+ LF +:+ "sec))")]
  /\ map (fun ev => match ev with
                    | EvClientDo req => Some (http.Header req)
                    | _ => None
                    end)
       (trace (run (@SendWebhookNotify demo_constants (demo_settings false)
                      demo_golib demo_collaborators
                      "https://example.com/hook?from=oapi.dingtalk.com"
                      "sec" demo_quota_notify)).2)
     = [None; None; Some (<["Content-Type" := "application/json"]> ∅)].
Proof.
  split; [reflexivity |]. split; [reflexivity |]. split.
  - intros K lib ext data payloadBytes finalWebhookURL Hfmt.
    apply formatWebhook_ok in Hfmt. simpl in Hfmt.
    change (isDingTalkWebhook
              "https://example.com/hook?from=oapi.dingtalk.com")
      with true in Hfmt.
    destruct Hfmt as [_ ->]. reflexivity.
  - split; vm_compute; reflexivity.
Qed.

(** C10, amended. For a URL in which no chat-bot marker occurs anywhere,
    host, path or query, the secret changes neither the payload nor the
    URL: every call of the delivery addresses the URL that was passed in,
    in both modes. With an empty secret the only header is [Content-Type];
    with a secret the direct request also carries [X-Webhook-Signature],
    and the worker descriptor carries [X-Webhook-Signature] and
    [Authorization: Bearer] with the secret. *)
Theorem generic_url_is_never_modified {K : Constants} {cfg : Settings}
    {lib : GoLib} {ext : Collaborators}
    (webhookURL secret : string) (data : dto.Notify) :
  isDingTalkWebhook webhookURL = false ->
  (run (formatWebhook webhookURL secret data)).1
    = (run (formatWebhook webhookURL "" data)).1
  /\ Forall (fun ev => event_url ev = Some webhookURL)
       (trace (run (SendWebhookNotify webhookURL secret data)).2)
  /\ forall payloadBytes finalWebhookURL,
       (run (formatWebhook webhookURL secret data)).1
         = Ok (payloadBytes, finalWebhookURL) ->
       finalWebhookURL = webhookURL
       /\ trace (run (SendWebhookNotify webhookURL secret data)).2 =
          if EnableWorker then
            [EvDoWorkerRequest
               {| URL := webhookURL;
                  Key := WorkerValidKey;
                  Method := "POST";
                  Headers :=
                    if String.eqb secret ""
                    then {[ "Content-Type" := "application/json" ]}
                    else <["Authorization" := "Bearer " +:+ secret]>
                           (<["X-Webhook-Signature" :=
                                generateSignature secret payloadBytes]>
                              {[ "Content-Type" := "application/json" ]});
                  Body := payloadBytes |}]
          else
            EvValidateURL webhookURL GetFetchSetting ::
            match ValidateURLWithFetchSetting webhookURL GetFetchSetting with
            | Some _ => []
            | None =>
                EvNewRequest "POST" webhookURL payloadBytes ::
                match http_NewRequest_err "POST" webhookURL with
                | Some _ => []
                | None =>
                    [EvClientDo
                       {| http.Method := "POST";
                          http.URL := webhookURL;
                          http.Body := payloadBytes;
                          http.Header :=
                            if String.eqb secret ""
                            then <["Content-Type" := "application/json"]> ∅
                            else <["X-Webhook-Signature" :=
                                     generateSignature secret payloadBytes]>
                                   (<["Content-Type" := "application/json"]>
                                      ∅) |}]
                end
            end.
Proof.
  intros Hgeneric. split; [| split].
  - unfold run. rewrite !formatWebhook_run. simpl. by rewrite Hgeneric.
  - destruct (run (formatWebhook webhookURL secret data)).1
      as [[payloadBytes finalWebhookURL] | e] eqn:Hfmt.
    + rewrite (SendWebhookNotify_events _ _ _ _ _ Hfmt).
      apply formatWebhook_ok in Hfmt. simpl in Hfmt.
      rewrite Hgeneric in Hfmt. destruct Hfmt as [_ ->].
      eapply Forall_impl; [apply delivery_events_address |].
      by intros ev [? _].
    + apply SendWebhookNotify_events_unformatted in Hfmt as [_ ->].
      constructor.
  - intros payloadBytes finalWebhookURL Hfmt.
    rewrite (SendWebhookNotify_events _ _ _ _ _ Hfmt).
    apply formatWebhook_ok in Hfmt. simpl in Hfmt.
    rewrite Hgeneric in Hfmt. destruct Hfmt as [_ ->].
    split; [reflexivity |].
    unfold direct_events, buildWorkerRequest, setRequestHeaders,
      http.Header_Set, MethodPost.
    rewrite Hgeneric. simpl.
    destruct EnableWorker; by destruct (String.eqb secret "").
Qed.

Lemma generic_url_is_never_modified_witness :
  isDingTalkWebhook "https://example.com/hook?id=7" = false
  /\ Forall (fun ev => event_url ev = Some "https://example.com/hook?id=7")
       (trace (run (@SendWebhookNotify demo_constants (demo_settings true)
                      demo_golib demo_collaborators
                      "https://example.com/hook?id=7" "sec"
                      demo_notify)).2)
  /\ Forall (fun ev => event_url ev = Some "https://example.com/hook?id=7")
       (trace (run (@SendWebhookNotify demo_constants (demo_settings false)
                      demo_golib demo_collaborators
                      "https://example.com/hook?id=7" "sec"
                      demo_notify)).2).
Proof.
  split; [reflexivity |]. split.
  - apply (@generic_url_is_never_modified demo_constants (demo_settings true)
             demo_golib demo_collaborators "https://example.com/hook?id=7"
             "sec" demo_notify eq_refl).
  - apply (@generic_url_is_never_modified demo_constants
             (demo_settings false) demo_golib demo_collaborators
             "https://example.com/hook?id=7" "sec" demo_notify eq_refl).
Defined.

(** The two modes on a generic destination with a secret: three calls in
    direct mode, one in worker mode, all to the URL as given. *)
Example generic_delivery_calls :
  map event_url
    (trace (run (@SendWebhookNotify demo_constants (demo_settings false)
                   demo_golib demo_collaborators
                   "https://example.com/hook?id=7" "sec" demo_notify)).2)
  = [Some "https://example.com/hook?id=7";
     Some "https://example.com/hook?id=7";
     Some "https://example.com/hook?id=7"]
  /\ map event_url
       (trace (run (@SendWebhookNotify demo_constants (demo_settings true)
                      demo_golib demo_collaborators
                      "https://example.com/hook?id=7" "sec" demo_notify)).2)
     = [Some "https://example.com/hook?id=7"].
Proof. split; reflexivity. Qed.

(** * Further properties *)

(** ** More on strings *)

Lemma append_assoc (a b c : string) : (a +:+ b) +:+ c = a +:+ (b +:+ c).
Proof.
  induction a as [| x a IH]; [reflexivity |].
  rewrite !append_cons. by rewrite IH.
Qed.

Lemma append_nil_r (s : string) : s +:+ "" = s.
Proof.
  induction s as [| c s IH]; [reflexivity |].
  rewrite append_cons. by rewrite IH.
Qed.

Lemma prefix_append (p s : string) : String.prefix p (p +:+ s) = true.
Proof. apply prefix_spec. by exists s. Qed.

(** Whatever stands around it, a string contains each of its pieces. *)
Lemma Contains_middle (pre x post : string) :
  strings.Contains (pre +:+ x +:+ post) x = true.
Proof. apply Contains_spec. by exists pre, post. Qed.

Lemma Contains_append_l (s pre x : string) :
  strings.Contains s x = true -> strings.Contains (pre +:+ s) x = true.
Proof.
  rewrite !Contains_spec. intros (a & b & ->).
  exists (pre +:+ a), b. by rewrite append_assoc.
Qed.

Lemma Contains_append_r (s post x : string) :
  strings.Contains s x = true -> strings.Contains (s +:+ post) x = true.
Proof.
  rewrite !Contains_spec. intros (a & b & ->).
  exists a, (b +:+ post). by rewrite !append_assoc.
Qed.

Lemma Contains_trans (s x y : string) :
  strings.Contains s x = true -> strings.Contains x y = true ->
  strings.Contains s y = true.
Proof.
  rewrite !Contains_spec. intros (a & b & ->) (c & d & ->).
  exists (a +:+ c), (d +:+ b). by rewrite !append_assoc.
Qed.

(** The key read backwards: equal keys come from equal pairs. *)
Lemma formatNotifyType_eq_inv {K : Constants} (c1 s1 c2 s2 : Z) :
  formatNotifyType c1 s1 = formatNotifyType c2 s2 -> c1 = c2 /\ s1 = s2.
Proof.
  unfold formatNotifyType. intros E.
  apply append_cancel_l in E. rewrite !append_cons, !append_nil_l in E.
  injection E as E.
  apply append_separator_inj in E as [Ec Es];
    [| apply itoa_no_underscore | apply itoa_no_underscore].
  split; by apply itoa_inj.
Qed.

(** ** The classifier as a whole *)

(** X1. The verdict is [true] exactly when the automatic-disable switch is
    on, the error is not nil, and either the error is channel-level, or it
    is not skip-retry and one of these holds: status 401, status 403 on a
    Gemini channel, a code of the list, a type of the list, a keyword found
    in the lowered message. *)
Theorem ShouldDisableChannel_true_iff {K : Constants} {cfg : Settings}
    {lib : GoLib} {ext : Collaborators}
    (channelType : Z) (err : option NewAPIError) :
  ShouldDisableChannel channelType err = true <->
  AutomaticDisableChannelEnabled = true
  /\ exists e, err = Some e
     /\ (IsChannelError e = true
         \/ IsSkipRetryError e = false
            /\ (StatusCode e = 401
                \/ (StatusCode e = 403 /\ channelType = ChannelTypeGemini)
                \/ Code (ToOpenAIError e) ∈ disable_codes
                \/ Type_ (ToOpenAIError e) ∈ disable_types
                \/ (AcSearch (strings_ToLower (Error e))
                      AutomaticDisableKeywords true).1 = true)).
Proof.
  destruct err as [e |].
  - rewrite ShouldDisableChannel_rules.
    rewrite andb_true_iff, orb_true_iff, andb_true_iff, negb_true_iff.
    rewrite !orb_true_iff, andb_true_iff, !Z.eqb_eq, !switch_case_spec.
    split.
    + intros [Hon H]. split; [done |]. exists e. split; [done |].
      destruct H as [? | [? H]]; [by left | right]. split; [done |].
      tauto.
    + intros [Hon (e' & [= <-] & H)]. split; [done |].
      destruct H as [? | [? H]]; [by left | right]. split; [done |].
      tauto.
  - rewrite ShouldDisableChannel_nil. split; [done |].
    by intros [_ (e & ? & _)].
Qed.

(** X2. No error and status make both verdicts [true]: a channel is never
    told to be disabled and enabled on the same outcome. *)
Theorem never_both_disable_and_enable {K : Constants} {cfg : Settings}
    {lib : GoLib} {ext : Collaborators}
    (channelType status : Z) (err : option NewAPIError) :
  ShouldDisableChannel channelType err
  && ShouldEnableChannel err status = false.
Proof.
  destruct err as [e |].
  - unfold ShouldEnableChannel.
    destruct AutomaticEnableChannelEnabled; simpl; apply andb_false_r.
  - by rewrite ShouldDisableChannel_nil.
Qed.

(** ** The transitions and their notifications *)

Lemma Contains_prefix_self (x post : string) :
  strings.Contains (x +:+ post) x = true.
Proof. apply (Contains_middle "" x post). Qed.

Lemma Contains_suffix_self (pre x : string) :
  strings.Contains (pre +:+ x) x = true.
Proof.
  apply Contains_spec. exists pre, "". by rewrite append_nil_r.
Qed.

(** Finds a piece of a string written as a chain of appends. *)
Ltac find_piece :=
  first [ apply Contains_prefix_self
        | apply Contains_suffix_self
        | apply Contains_append_l; find_piece ].

Section Transitions.
Context {K : Constants} {lib : GoLib} {ext : Collaborators}.

Lemma DisableChannel_run (channelError : ChannelError) (reason : string)
    (w : World) :
  AutoBan channelError = true ->
  exists line content,
    DisableChannel channelError reason w =
      (if UpdateChannelStatus (ChannelId channelError)
            (UsingKey channelError) ChannelStatusAutoDisabled reason
       then
         (Ok tt,
          {| ticks := S (ticks w);
             trace := trace w ++
               [EvSysLog line;
                EvUpdateChannelStatus (ChannelId channelError)
                  (UsingKey channelError) ChannelStatusAutoDisabled reason;
                EvNotifyRootUser
                  (formatNotifyType (ChannelId channelError)
                     ChannelStatusAutoDisabled)
                  ("【通道告警】- " +:+ ChannelName channelError
                   +:+ " (#" +:+ itoa (ChannelId channelError) +:+ ")")
                  content] |})
       else
         (Ok tt,
          {| ticks := ticks w;
             trace := trace w ++
               [EvSysLog line;
                EvUpdateChannelStatus (ChannelId channelError)
                  (UsingKey channelError) ChannelStatusAutoDisabled
                  reason] |}))
    /\ strings.Contains content (ChannelName channelError) = true
    /\ strings.Contains content (itoa (ChannelId channelError)) = true
    /\ strings.Contains content (time_Format (time_Now (ticks w))) = true
    /\ strings.Contains content reason = true.
Proof.
  intros Hban. eexists _, _. split.
  - unfold DisableChannel. rewrite Hban.
    unfold SysLog, NotifyRootUser, UpdateChannelStatus_io, time_Now_io, emit,
      mbind, IO_bind, mret, IO_ret, tick.
    cbn [negb ticks trace fst snd].
    destruct (UpdateChannelStatus _ _ _ _);
      cbn [ticks trace]; rewrite <- !app_assoc; reflexivity.
  - repeat split; find_piece.
Qed.

Lemma EnableChannel_run (channelId : Z) (usingKey channelName : string)
    (w : World) :
  exists content,
    EnableChannel channelId usingKey channelName w =
      (if UpdateChannelStatus channelId usingKey ChannelStatusEnabled ""
       then
         (Ok tt,
          {| ticks := S (ticks w);
             trace := trace w ++
               [EvUpdateChannelStatus channelId usingKey
                  ChannelStatusEnabled "";
                EvNotifyRootUser
                  (formatNotifyType channelId ChannelStatusEnabled)
                  ("【通道恢复】- " +:+ channelName
                   +:+ " (#" +:+ itoa channelId +:+ ")")
                  content] |})
       else
         (Ok tt,
          {| ticks := ticks w;
             trace := trace w ++
               [EvUpdateChannelStatus channelId usingKey
                  ChannelStatusEnabled ""] |}))
    /\ strings.Contains content channelName = true
    /\ strings.Contains content (itoa channelId) = true
    /\ strings.Contains content (time_Format (time_Now (ticks w))) = true.
Proof.
  eexists. split.
  - unfold EnableChannel.
    unfold NotifyRootUser, UpdateChannelStatus_io, time_Now_io, emit,
      mbind, IO_bind, mret, IO_ret, tick.
    cbn [ticks trace fst snd].
    destruct (UpdateChannelStatus _ _ _ _);
      cbn [ticks trace]; rewrite <- ?app_assoc; reflexivity.
  - repeat split; find_piece.
Qed.

End Transitions.

(** X3. With [AutoBan] true, [DisableChannel] writes one log line and asks
    the store once, for the channel's id and key, the status
    [ChannelStatusAutoDisabled] and the reason. When the store reports the
    transition as applied, exactly one notification follows, under the key
    of the channel and that status, and the clock is read once; when it does
    not, nothing follows and the clock is not read. *)
Theorem DisableChannel_notifies_iff_applied {K : Constants} {lib : GoLib}
    {ext : Collaborators}
    (channelError : ChannelError) (reason : string) (w : World) :
  AutoBan channelError = true ->
  exists line subject content,
    DisableChannel channelError reason w =
      if UpdateChannelStatus (ChannelId channelError)
           (UsingKey channelError) ChannelStatusAutoDisabled reason
      then
        (Ok tt,
         {| ticks := S (ticks w);
            trace := trace w ++
              [EvSysLog line;
               EvUpdateChannelStatus (ChannelId channelError)
                 (UsingKey channelError) ChannelStatusAutoDisabled reason;
               EvNotifyRootUser
                 (formatNotifyType (ChannelId channelError)
                    ChannelStatusAutoDisabled)
                 subject content] |})
      else
        (Ok tt,
         {| ticks := ticks w;
            trace := trace w ++
              [EvSysLog line;
               EvUpdateChannelStatus (ChannelId channelError)
                 (UsingKey channelError) ChannelStatusAutoDisabled
                 reason] |}).
Proof.
  intros Hban.
  destruct (DisableChannel_run channelError reason w Hban)
    as (line & content & E & _).
  eexists line, _, content. exact E.
Qed.

Lemma DisableChannel_notifies_iff_applied_witness :
  AutoBan (NewChannelError 5 1 "ch" true "key-2" true "") = true
  /\ exists line subject content,
       run (@DisableChannel demo_constants demo_golib demo_collaborators
              (NewChannelError 5 1 "ch" true "key-2" true "") "quota")
       = (Ok tt,
          {| ticks := 1;
             trace := [EvSysLog line;
                       EvUpdateChannelStatus 5 "key-2" 3 "quota";
                       EvNotifyRootUser "channel_update_5_3" subject
                         content] |}).
Proof.
  split; [reflexivity |].
  exact (@DisableChannel_notifies_iff_applied demo_constants demo_golib
           demo_collaborators (NewChannelError 5 1 "ch" true "key-2" true "")
           "quota" world0 eq_refl).
Defined.

(** X4. The alert that follows an applied disable transition names the
    channel in its subject, and its body carries the channel name, the
    channel id in decimal, the formatted time of the clock reading and the
    reason, each verbatim. *)
Theorem disable_alert_carries_the_reason {K : Constants} {lib : GoLib}
    {ext : Collaborators}
    (channelError : ChannelError) (reason : string) :
  AutoBan channelError = true ->
  UpdateChannelStatus (ChannelId channelError) (UsingKey channelError)
    ChannelStatusAutoDisabled reason = true ->
  exists content,
    last (trace (run (DisableChannel channelError reason)).2) =
      Some (EvNotifyRootUser
              (formatNotifyType (ChannelId channelError)
                 ChannelStatusAutoDisabled)
              ("【通道告警】- " +:+ ChannelName channelError
               +:+ " (#" +:+ itoa (ChannelId channelError) +:+ ")")
              content)
    /\ strings.Contains content (ChannelName channelError) = true
    /\ strings.Contains content (itoa (ChannelId channelError)) = true
    /\ strings.Contains content (time_Format (time_Now 0)) = true
    /\ strings.Contains content reason = true.
Proof.
  intros Hban Hstore.
  destruct (DisableChannel_run channelError reason world0 Hban)
    as (line & content & E & Hc).
  exists content. split; [| exact Hc].
  unfold run. rewrite E, Hstore. reflexivity.
Qed.

Lemma disable_alert_carries_the_reason_witness :
  AutoBan (NewChannelError 5 1 "ch" false "" true "") = true
  /\ exists content,
       last (trace (run (@DisableChannel demo_constants demo_golib
                           demo_collaborators
                           (NewChannelError 5 1 "ch" false "" true "")
                           "no quota left")).2)
       = Some (EvNotifyRootUser "channel_update_5_3" "【通道告警】- ch (#5)"
                 content)
       /\ strings.Contains content "ch" = true
       /\ strings.Contains content "5" = true
       /\ strings.Contains content "1700000000123456789" = true
       /\ strings.Contains content "no quota left" = true.
Proof.
  split; [reflexivity |].
  exact (@disable_alert_carries_the_reason demo_constants demo_golib
           demo_collaborators (NewChannelError 5 1 "ch" false "" true "")
           "no quota left" eq_refl eq_refl).
Defined.

(** X5. [EnableChannel] asks the store once, for the status
    [ChannelStatusEnabled] and an empty reason, and writes no log line. When
    the store reports the transition as applied, exactly one notification
    follows, under the key of the channel and [ChannelStatusEnabled], whose
    subject and body name the channel; when it does not, nothing follows. *)
Theorem EnableChannel_notifies_iff_applied {K : Constants} {lib : GoLib}
    {ext : Collaborators}
    (channelId : Z) (usingKey channelName : string) (w : World) :
  exists content,
    EnableChannel channelId usingKey channelName w =
      (if UpdateChannelStatus channelId usingKey ChannelStatusEnabled ""
       then
         (Ok tt,
          {| ticks := S (ticks w);
             trace := trace w ++
               [EvUpdateChannelStatus channelId usingKey
                  ChannelStatusEnabled "";
                EvNotifyRootUser
                  (formatNotifyType channelId ChannelStatusEnabled)
                  ("【通道恢复】- " +:+ channelName
                   +:+ " (#" +:+ itoa channelId +:+ ")")
                  content] |})
       else
         (Ok tt,
          {| ticks := ticks w;
             trace := trace w ++
               [EvUpdateChannelStatus channelId usingKey
                  ChannelStatusEnabled ""] |}))
    /\ strings.Contains content channelName = true
    /\ strings.Contains content (itoa channelId) = true.
Proof.
  destruct (EnableChannel_run channelId usingKey channelName w)
    as (content & E & Hn & Hi & _).
  by exists content.
Qed.

(** X6. A disable followed by an enable of the same channel, both applied
    by the store, hands the router two notifications, first the one under
    the key of [ChannelStatusAutoDisabled], then the one under the key of
    [ChannelStatusEnabled]; the two keys differ as soon as the two status
    constants do, so the router cannot take one for a repeat of the other. *)
Theorem disable_then_enable_use_distinct_keys {K : Constants} {lib : GoLib}
    {ext : Collaborators}
    (channelError : ChannelError) (reason : string) :
  ChannelStatusAutoDisabled <> ChannelStatusEnabled ->
  AutoBan channelError = true ->
  UpdateChannelStatus (ChannelId channelError) (UsingKey channelError)
    ChannelStatusAutoDisabled reason = true ->
  UpdateChannelStatus (ChannelId channelError) (UsingKey channelError)
    ChannelStatusEnabled "" = true ->
  exists s1 c1 s2 c2,
    List.filter is_notification
      (trace (run (DisableChannel channelError reason;;
                   EnableChannel (ChannelId channelError)
                     (UsingKey channelError)
                     (ChannelName channelError))).2)
    = [EvNotifyRootUser
         (formatNotifyType (ChannelId channelError)
            ChannelStatusAutoDisabled) s1 c1;
       EvNotifyRootUser
         (formatNotifyType (ChannelId channelError) ChannelStatusEnabled)
         s2 c2]
    /\ formatNotifyType (ChannelId channelError) ChannelStatusAutoDisabled
       <> formatNotifyType (ChannelId channelError) ChannelStatusEnabled.
Proof.
  intros Hne Hban Hdis Hen.
  destruct (DisableChannel_run channelError reason world0 Hban)
    as (line & c1 & E1 & _).
  rewrite Hdis in E1.
  match type of E1 with _ = (_, ?w1) =>
    destruct (EnableChannel_run (ChannelId channelError)
                (UsingKey channelError) (ChannelName channelError) w1)
      as (c2 & E2 & _)
  end.
  rewrite Hen in E2.
  eexists _, c1, _, c2. split.
  - unfold run, mbind, IO_bind. rewrite E1, E2. reflexivity.
  - intros E. apply formatNotifyType_eq_inv in E as [_ E]. by apply Hne.
Qed.

Lemma disable_then_enable_use_distinct_keys_witness :
  @ChannelStatusAutoDisabled demo_constants
    <> @ChannelStatusEnabled demo_constants
  /\ exists s1 c1 s2 c2,
       List.filter is_notification
         (trace (run (@DisableChannel demo_constants demo_golib
                        demo_collaborators
                        (NewChannelError 5 1 "ch" false "" true "") "quota";;
                      @EnableChannel demo_constants demo_golib
                        demo_collaborators 5 "" "ch")).2)
       = [EvNotifyRootUser "channel_update_5_3" s1 c1;
          EvNotifyRootUser "channel_update_5_1" s2 c2]
       /\ "channel_update_5_3" <> "channel_update_5_1".
Proof.
  assert (Hne : @ChannelStatusAutoDisabled demo_constants
                <> @ChannelStatusEnabled demo_constants) by discriminate.
  split; [exact Hne |].
  exact (@disable_then_enable_use_distinct_keys demo_constants demo_golib
           demo_collaborators (NewChannelError 5 1 "ch" false "" true "")
           "quota" Hne eq_refl eq_refl eq_refl).
Defined.

(** ** Detection and layout of the chat-bot message *)

(** X7. The first test of [isDingTalkWebhook] never decides: a URL is a
    chat-bot destination exactly when it contains ["api.dingtalk.com"],
    since ["oapi.dingtalk.com"] contains that string. *)
Theorem isDingTalkWebhook_is_one_test (webhookURL : string) :
  isDingTalkWebhook webhookURL
  = strings.Contains webhookURL "api.dingtalk.com".
Proof.
  unfold isDingTalkWebhook.
  destruct (strings.Contains webhookURL "oapi.dingtalk.com") eqn:E;
    [| reflexivity].
  simpl. symmetry.
  apply (Contains_trans _ _ _ E). reflexivity.
Qed.

Lemma no_break_in_empty (pre post : string) :
  "" <> pre +:+ LF +:+ post.
Proof. destruct pre; discriminate. Qed.

(** In the output of the second replacement every line feed stands after
    two spaces. *)
Lemma replace_LF_forces_breaks (fuel : nat) :
  forall s pre post,
    strings.replace_from fuel s LF ("  " +:+ LF) = pre +:+ LF +:+ post ->
    (String.length s <= fuel)%nat ->
    exists pre', pre = pre' +:+ "  ".
Proof.
  induction fuel as [| fuel IH]; intros s pre post E Hlen.
  - destruct s; [| simpl in Hlen; lia].
    simpl in E. by apply no_break_in_empty in E.
  - destruct s as [| c rest].
    + simpl in E. by apply no_break_in_empty in E.
    + simpl in Hlen.
      cbn [strings.replace_from] in E.
      destruct (String.prefix LF (String c rest)) eqn:P.
      * change (strings.drop (String.length LF) (String c rest))
          with rest in E.
        change (("  " +:+ LF) +:+ strings.replace_from fuel rest LF ("  " +:+ LF))
          with (String " " (String " " (String (ascii_of_nat 10)
                  (strings.replace_from fuel rest LF ("  " +:+ LF))))) in E.
        destruct pre as [| a [| b [| d pre]]].
        -- discriminate.
        -- discriminate.
        -- injection E as -> -> _. by exists "".
        -- injection E as Ha Hb Hd E. subst a b d.
           apply IH in E as [pre' ->]; [| lia].
           by exists (String " " (String " " (String (ascii_of_nat 10) pre'))).
      * destruct pre as [| a pre].
        -- injection E as -> _.
           assert (String.prefix LF (String (ascii_of_nat 10) rest) = true)
             by (apply prefix_spec; by exists rest).
           congruence.
        -- rewrite append_cons in E. injection E as Hc E. subst a.
           apply IH in E as [pre' ->]; [| lia].
           by exists (String c pre').
Qed.

(** Replacing a string that does not occur changes nothing. *)
Lemma replace_from_absent (fuel : nat) (old new : string) :
  forall s, strings.Contains s old = false ->
            strings.replace_from fuel s old new = s.
Proof.
  induction fuel as [| fuel IH]; intros s Habs; [reflexivity |].
  destruct s as [| c rest]; [reflexivity |].
  rewrite Contains_unfold in Habs.
  apply orb_false_iff in Habs as [P Hrest].
  cbn [strings.replace_from]. rewrite P. by rewrite IH.
Qed.

Lemma ReplaceAll_absent (s old new : string) :
  strings.Contains s old = false -> strings.ReplaceAll s old new = s.
Proof.
  intros Habs. unfold strings.ReplaceAll.
  destruct old; [reflexivity |]. by apply replace_from_absent.
Qed.

Section ChatBotLayout.
Context {K : Constants} {lib : GoLib}.

(** The text of the chat-bot message: an optional heading, then the
    content with its line breaks converted. *)
Lemma dingTalkPayload_text (data : dto.Notify) (content : string) :
  Markdown_Text (dingTalkPayload data content) =
  (if negb (String.eqb (dto.Title data) "")
      && negb (strings.HasPrefix (dto.Type_ data) NotifyTypeChannelUpdate)
   then "### " +:+ dto.Title data +:+ LF +:+ LF
   else "")
  +:+ strings.ReplaceAll (strings.ReplaceAll content (CR +:+ LF) LF)
        LF ("  " +:+ LF).
Proof.
  unfold dingTalkPayload. cbn [Markdown_Text].
  destruct (strings.HasPrefix _ _), (String.eqb (dto.Title data) "");
    cbn [negb andb]; try reflexivity.
  by rewrite !append_assoc.
Qed.

End ChatBotLayout.

(** X8. The text of the chat-bot message is an optional heading followed
    by a body in which every line feed stands right after two spaces: each
    line break of the content, [\r\n] or [\n], reaches the chat bot as a
    forced line break. *)
Theorem chat_bot_line_breaks_are_forced {K : Constants} {lib : GoLib}
    (data : dto.Notify) (content : string) :
  exists heading body,
    Markdown_Text (dingTalkPayload data content) = heading +:+ body
    /\ (heading = ""
        \/ heading = "### " +:+ dto.Title data +:+ LF +:+ LF)
    /\ forall pre post,
         body = pre +:+ LF +:+ post -> exists pre', pre = pre' +:+ "  ".
Proof.
  eexists _, _. split; [apply dingTalkPayload_text |]. split.
  - destruct (negb _ && negb _); [by right | by left].
  - intros pre post E. unfold strings.ReplaceAll at 1 in E.
    change LF with (String (ascii_of_nat 10) "") in E at 1.
    cbv iota in E.
    by apply replace_LF_forces_breaks in E.
Qed.

Example line_break_conversion :
  strings.ReplaceAll
    (strings.ReplaceAll ("a" +:+ CR +:+ LF +:+ "b" +:+ LF +:+ "c")
       (CR +:+ LF) LF)
    LF ("  " +:+ LF)
  = "a  " +:+ LF +:+ "b  " +:+ LF +:+ "c"
  /\ strings.ReplaceAll
       (strings.ReplaceAll (CR +:+ CR +:+ LF) (CR +:+ LF) LF)
       LF ("  " +:+ LF)
     = CR +:+ "  " +:+ LF.
Proof. split; reflexivity. Qed.

(** X9. A content without a line feed is laid out as it is: the text of
    the chat-bot message is the optional heading followed by the content,
    byte for byte. *)
Theorem content_without_line_feed_is_kept {K : Constants} {lib : GoLib}
    (data : dto.Notify) (content : string) :
  strings.Contains content LF = false ->
  Markdown_Text (dingTalkPayload data content) =
  (if negb (String.eqb (dto.Title data) "")
      && negb (strings.HasPrefix (dto.Type_ data) NotifyTypeChannelUpdate)
   then "### " +:+ dto.Title data +:+ LF +:+ LF
   else "")
  +:+ content.
Proof.
  intros Hlf. rewrite dingTalkPayload_text. f_equal.
  assert (Hcrlf : strings.Contains content (CR +:+ LF) = false).
  { destruct (strings.Contains content (CR +:+ LF)) eqn:E; [| done].
    rewrite <- Hlf. symmetry.
    apply (Contains_trans _ _ _ E). reflexivity. }
  rewrite (ReplaceAll_absent _ _ _ Hcrlf). by apply ReplaceAll_absent.
Qed.

Lemma content_without_line_feed_is_kept_witness :
  strings.Contains "a %s b" LF = false
  /\ Markdown_Text
       (@dingTalkPayload demo_constants demo_golib demo_notify "a %s b")
     = "### Quota" +:+ LF +:+ LF +:+ "a %s b".
Proof.
  split; [reflexivity |].
  exact (@content_without_line_feed_is_kept demo_constants demo_golib
           demo_notify "a %s b" eq_refl).
Defined.

(** X10. A notification whose type is a notify-type key, as the disable
    and enable transitions build it, never gets the heading in the chat-bot
    message, whatever its title: the text is the converted content alone. *)
Theorem channel_notifications_have_no_heading {K : Constants} {lib : GoLib}
    (data : dto.Notify) (content : string) (channelId status : Z) :
  dto.Type_ data = formatNotifyType channelId status ->
  Markdown_Text (dingTalkPayload data content) =
  strings.ReplaceAll (strings.ReplaceAll content (CR +:+ LF) LF)
    LF ("  " +:+ LF).
Proof.
  intros Htype. rewrite dingTalkPayload_text, Htype.
  unfold strings.HasPrefix, formatNotifyType.
  rewrite prefix_append. by rewrite andb_false_r.
Qed.

Lemma channel_notifications_have_no_heading_witness :
  "channel_update_5_3" = @formatNotifyType demo_constants 5 3
  /\ Markdown_Text
       (@dingTalkPayload demo_constants demo_golib
          {| dto.Type_ := "channel_update_5_3"; dto.Title := "Alert";
             dto.Content := ""; dto.Values := [] |}
          ("down" +:+ LF +:+ "since noon"))
     = "down  " +:+ LF +:+ "since noon".
Proof.
  split; [reflexivity |].
  exact (@channel_notifications_have_no_heading demo_constants demo_golib
           {| dto.Type_ := "channel_update_5_3"; dto.Title := "Alert";
              dto.Content := ""; dto.Values := [] |}
           ("down" +:+ LF +:+ "since noon") 5 3 eq_refl).
Defined.

(** ** Outcomes of a delivery *)

Section Outcomes.
Context {K : Constants} {cfg : Settings} {lib : GoLib} {ext : Collaborators}.

Lemma checkStatus_result (statusCode : Z) (w : World) :
  (checkStatus statusCode w).1 =
  if (200 <=? statusCode)%Z && (statusCode <? 300)%Z then Ok tt
  else Fail ("webhook request failed with status code: " +:+ itoa statusCode).
Proof.
  unfold checkStatus.
  destruct (Z.ltb_spec statusCode 200), (Z.leb_spec 300 statusCode),
    (Z.leb_spec 200 statusCode), (Z.ltb_spec statusCode 300);
    simpl; try reflexivity; lia.
Qed.

Lemma sendThroughWorker_result (webhookURL secret payloadBytes
    finalWebhookURL : string) (w : World) :
  (sendThroughWorker webhookURL secret payloadBytes finalWebhookURL w).1 =
  match DoWorkerRequest (buildWorkerRequest webhookURL secret payloadBytes
                           finalWebhookURL) with
  | inl err =>
      Fail ("failed to send webhook request through worker: " +:+ err)
  | inr statusCode =>
      if (200 <=? statusCode)%Z && (statusCode <? 300)%Z then Ok tt
      else Fail ("webhook request failed with status code: "
                 +:+ itoa statusCode)
  end.
Proof.
  unfold sendThroughWorker, DoWorkerRequest_io, emit, mbind, IO_bind, mret,
    IO_ret. simpl.
  destruct (DoWorkerRequest _); [reflexivity |]. apply checkStatus_result.
Qed.

Lemma sendDirect_result (webhookURL secret payloadBytes
    finalWebhookURL : string) (w : World) :
  (sendDirect webhookURL secret payloadBytes finalWebhookURL w).1 =
  match ValidateURLWithFetchSetting finalWebhookURL GetFetchSetting with
  | Some err => Fail ("request reject: " +:+ err)
  | None =>
      match http_NewRequest_err MethodPost finalWebhookURL with
      | Some err => Fail ("failed to create webhook request: " +:+ err)
      | None =>
          match client_Do
                  (setRequestHeaders webhookURL secret payloadBytes
                     {| http.Method := MethodPost;
                        http.URL := finalWebhookURL;
                        http.Body := payloadBytes;
                        http.Header := ∅ |}) with
          | inl err => Fail ("failed to send webhook request: " +:+ err)
          | inr statusCode =>
              if (200 <=? statusCode)%Z && (statusCode <? 300)%Z then Ok tt
              else Fail ("webhook request failed with status code: "
                         +:+ itoa statusCode)
          end
      end
  end.
Proof.
  unfold sendDirect, ValidateURL_io, http_NewRequest, client_Do_io, emit,
    mbind, IO_bind, mret, IO_ret. simpl.
  destruct (ValidateURLWithFetchSetting _ _); [reflexivity |]. simpl.
  destruct (http_NewRequest_err _ _); [reflexivity |]. simpl.
  destruct (client_Do _); [reflexivity |]. apply checkStatus_result.
Qed.

Lemma SendWebhookNotify_after_format (webhookURL secret : string)
    (data : dto.Notify) (payloadBytes finalWebhookURL : string) :
  (run (formatWebhook webhookURL secret data)).1
    = Ok (payloadBytes, finalWebhookURL) ->
  run (SendWebhookNotify webhookURL secret data) =
  if EnableWorker
  then sendThroughWorker webhookURL secret payloadBytes finalWebhookURL
         (run (formatWebhook webhookURL secret data)).2
  else sendDirect webhookURL secret payloadBytes finalWebhookURL
         (run (formatWebhook webhookURL secret data)).2.
Proof.
  unfold run. intros Hfmt. rewrite SendWebhookNotify_run.
  destruct (formatWebhook webhookURL secret data world0) as [r w'].
  simpl in Hfmt. by subst r.
Qed.

End Outcomes.

(** X11. In worker mode, once the payload is formatted, the delivery makes
    one call, to the worker relay, and runs no validation of its own. Its
    result is the nil error exactly for a status from 200 to 299; another
    status gives the error with that status, a failed exchange the error
    ["failed to send webhook request through worker: ..."]. *)
Theorem worker_delivery_outcome {K : Constants} {cfg : Settings}
    {lib : GoLib} {ext : Collaborators}
    (webhookURL secret : string) (data : dto.Notify)
    (payloadBytes finalWebhookURL : string) :
  EnableWorker = true ->
  (run (formatWebhook webhookURL secret data)).1
    = Ok (payloadBytes, finalWebhookURL) ->
  (run (SendWebhookNotify webhookURL secret data)).1 =
    match DoWorkerRequest (buildWorkerRequest webhookURL secret payloadBytes
                             finalWebhookURL) with
    | inl err =>
        Fail ("failed to send webhook request through worker: " +:+ err)
    | inr statusCode =>
        if (200 <=? statusCode)%Z && (statusCode <? 300)%Z then Ok tt
        else Fail ("webhook request failed with status code: "
                   +:+ itoa statusCode)
    end
  /\ trace (run (SendWebhookNotify webhookURL secret data)).2
     = [EvDoWorkerRequest
          (buildWorkerRequest webhookURL secret payloadBytes
             finalWebhookURL)].
Proof.
  intros Hworker Hfmt. split.
  - rewrite (SendWebhookNotify_after_format _ _ _ _ _ Hfmt), Hworker.
    apply sendThroughWorker_result.
  - rewrite (SendWebhookNotify_events _ _ _ _ _ Hfmt). by rewrite Hworker.
Qed.

Lemma worker_delivery_outcome_witness :
  @EnableWorker (demo_settings true) = true
  /\ (run (@SendWebhookNotify demo_constants (demo_settings true) demo_golib
             demo_collaborators "https://example.com/hook" "sec"
             demo_notify)).1 = Ok tt
  /\ length (trace (run (@SendWebhookNotify demo_constants
                           (demo_settings true) demo_golib
                           demo_collaborators "https://example.com/hook"
                           "sec" demo_notify)).2) = 1%nat.
Proof.
  split; [reflexivity |].
  destruct (@worker_delivery_outcome demo_constants (demo_settings true)
              demo_golib demo_collaborators "https://example.com/hook" "sec"
              demo_notify "generic:a xy b %s" "https://example.com/hook"
              eq_refl eq_refl) as [Hres Htrace].
  split; [exact Hres | by rewrite Htrace].
Defined.

(** X12. In direct mode, once the payload is formatted, the validator has
    accepted the final URL and the request is built, the result is the nil
    error exactly for a status from 200 to 299; another status gives the
    error with that status, a failed exchange the error
    ["failed to send webhook request: ..."]. The calls are the validation,
    the construction of the request and one exchange, in this order. *)
Theorem direct_delivery_outcome {K : Constants} {cfg : Settings}
    {lib : GoLib} {ext : Collaborators}
    (webhookURL secret : string) (data : dto.Notify)
    (payloadBytes finalWebhookURL : string) :
  EnableWorker = false ->
  (run (formatWebhook webhookURL secret data)).1
    = Ok (payloadBytes, finalWebhookURL) ->
  ValidateURLWithFetchSetting finalWebhookURL GetFetchSetting = None ->
  http_NewRequest_err MethodPost finalWebhookURL = None ->
  let req :=
    setRequestHeaders webhookURL secret payloadBytes
      {| http.Method := MethodPost; http.URL := finalWebhookURL;
         http.Body := payloadBytes; http.Header := ∅ |} in
  (run (SendWebhookNotify webhookURL secret data)).1 =
    match client_Do req with
    | inl err => Fail ("failed to send webhook request: " +:+ err)
    | inr statusCode =>
        if (200 <=? statusCode)%Z && (statusCode <? 300)%Z then Ok tt
        else Fail ("webhook request failed with status code: "
                   +:+ itoa statusCode)
    end
  /\ trace (run (SendWebhookNotify webhookURL secret data)).2
     = [EvValidateURL finalWebhookURL GetFetchSetting;
        EvNewRequest MethodPost finalWebhookURL payloadBytes;
        EvClientDo req].
Proof.
  intros Hdirect Hfmt Hval Hnew req. split.
  - rewrite (SendWebhookNotify_after_format _ _ _ _ _ Hfmt), Hdirect.
    rewrite sendDirect_result, Hval, Hnew. reflexivity.
  - rewrite (SendWebhookNotify_events _ _ _ _ _ Hfmt), Hdirect.
    unfold direct_events. by rewrite Hval, Hnew.
Qed.

Lemma direct_delivery_outcome_witness :
  @ValidateURLWithFetchSetting demo_golib demo_collaborators
    "https://example.com/hook" demo_fetch = None
  /\ (run (@SendWebhookNotify demo_constants (demo_settings false) demo_golib
             demo_collaborators "https://example.com/hook" "sec"
             demo_notify)).1 = Ok tt
  /\ map event_url
       (trace (run (@SendWebhookNotify demo_constants (demo_settings false)
                      demo_golib demo_collaborators
                      "https://example.com/hook" "sec" demo_notify)).2)
     = [Some "https://example.com/hook"; Some "https://example.com/hook";
        Some "https://example.com/hook"].
Proof.
  split; [reflexivity |].
  destruct (@direct_delivery_outcome demo_constants (demo_settings false)
              demo_golib demo_collaborators "https://example.com/hook" "sec"
              demo_notify "generic:a xy b %s" "https://example.com/hook"
              eq_refl eq_refl eq_refl eq_refl) as [Hres Htrace].
  split; [exact Hres | by rewrite Htrace].
Defined.

(** X13. In direct mode, when the request cannot be built for the accepted
    URL, the delivery returns the error
    ["failed to create webhook request: ..."] and nothing is sent: the calls
    stop after the validation and the attempt to build the request. *)
Theorem unbuildable_request_is_never_sent {K : Constants} {cfg : Settings}
    {lib : GoLib} {ext : Collaborators}
    (webhookURL secret : string) (data : dto.Notify)
    (payloadBytes finalWebhookURL err : string) :
  EnableWorker = false ->
  (run (formatWebhook webhookURL secret data)).1
    = Ok (payloadBytes, finalWebhookURL) ->
  ValidateURLWithFetchSetting finalWebhookURL GetFetchSetting = None ->
  http_NewRequest_err MethodPost finalWebhookURL = Some err ->
  (run (SendWebhookNotify webhookURL secret data)).1
    = Fail ("failed to create webhook request: " +:+ err)
  /\ trace (run (SendWebhookNotify webhookURL secret data)).2
     = [EvValidateURL finalWebhookURL GetFetchSetting;
        EvNewRequest MethodPost finalWebhookURL payloadBytes].
Proof.
  intros Hdirect Hfmt Hval Hnew. split.
  - rewrite (SendWebhookNotify_after_format _ _ _ _ _ Hfmt), Hdirect.
    rewrite sendDirect_result, Hval, Hnew. reflexivity.
  - rewrite (SendWebhookNotify_events _ _ _ _ _ Hfmt), Hdirect.
    unfold direct_events. by rewrite Hval, Hnew.
Qed.

Lemma unbuildable_request_is_never_sent_witness :
  @http_NewRequest_err demo_golib failing_collaborators "POST"
    "https://oapi.dingtalk.com/robot/send" = Some "invalid URL escape"
  /\ (run (@SendWebhookNotify demo_constants (demo_settings false) demo_golib
             failing_collaborators "https://oapi.dingtalk.com/robot/send" ""
             demo_notify)).1
     = Fail "failed to create webhook request: invalid URL escape"
  /\ trace (run (@SendWebhookNotify demo_constants (demo_settings false)
                   demo_golib failing_collaborators
                   "https://oapi.dingtalk.com/robot/send" ""
                   demo_notify)).2
     = [EvValidateURL "https://oapi.dingtalk.com/robot/send" demo_fetch;
        EvNewRequest "POST" "https://oapi.dingtalk.com/robot/send"
          ("dingtalk:### Quota" +:+ LF +:+ LF +:+ "a xy b %s")].
Proof.
  split; [reflexivity |].
  exact (@unbuildable_request_is_never_sent demo_constants
           (demo_settings false) demo_golib failing_collaborators
           "https://oapi.dingtalk.com/robot/send" "" demo_notify
           ("dingtalk:### Quota" +:+ LF +:+ LF +:+ "a xy b %s")
           "https://oapi.dingtalk.com/robot/send" "invalid URL escape"
           eq_refl eq_refl eq_refl eq_refl).
Defined.

(** X14. When the payload cannot be encoded, the delivery returns the
    encoding error of its schema and nothing leaves the process, in either
    mode: no validation, no request, no call to the worker; the clock has
    been read once. *)
Theorem unencodable_payload_sends_nothing {K : Constants} {cfg : Settings}
    {lib : GoLib} {ext : Collaborators}
    (webhookURL secret : string) (data : dto.Notify) :
  let content := substituteValues (dto.Content data) (dto.Values data) in
  if isDingTalkWebhook webhookURL then
    match json_Marshal_DingTalk (dingTalkPayload data content) with
    | inl err =>
        run (SendWebhookNotify webhookURL secret data) =
        (Fail ("failed to marshal dingtalk webhook payload: " +:+ err),
         {| ticks := 1; trace := [] |})
    | inr _ => True
    end
  else
    match json_Marshal_Webhook
            (webhookPayload data content (Unix (time_Now 0))) with
    | inl err =>
        run (SendWebhookNotify webhookURL secret data) =
        (Fail ("failed to marshal webhook payload: " +:+ err),
         {| ticks := 1; trace := [] |})
    | inr _ => True
    end.
Proof.
  intros content. subst content. unfold run.
  rewrite SendWebhookNotify_run, formatWebhook_run. simpl.
  destruct (isDingTalkWebhook webhookURL).
  - by destruct (json_Marshal_DingTalk _).
  - by destruct (json_Marshal_Webhook _).
Qed.

Example unencodable_payload :
  run (@SendWebhookNotify demo_constants (demo_settings false) demo_golib
         failing_collaborators "https://example.com/hook" "sec" demo_notify)
  = (Fail "failed to marshal webhook payload: json: unsupported type",
     {| ticks := 1; trace := [] |}).
Proof. reflexivity. Qed.

(** X15. In worker mode the delivery never validates the URL itself and
    never builds or sends a request of its own: whatever the inputs, its
    calls are at most one, and that one is the call to the worker relay. *)
Theorem worker_mode_never_validates {K : Constants} {cfg : Settings}
    {lib : GoLib} {ext : Collaborators}
    (webhookURL secret : string) (data : dto.Notify) :
  EnableWorker = true ->
  trace (run (SendWebhookNotify webhookURL secret data)).2 = []
  \/ exists req,
       trace (run (SendWebhookNotify webhookURL secret data)).2
       = [EvDoWorkerRequest req].
Proof.
  intros Hworker.
  destruct (run (formatWebhook webhookURL secret data)).1
    as [[payloadBytes finalWebhookURL] | e] eqn:Hfmt.
  - right. rewrite (SendWebhookNotify_events _ _ _ _ _ Hfmt), Hworker. eauto.
  - left. by apply SendWebhookNotify_events_unformatted in Hfmt as [_ ->].
Qed.

Lemma worker_mode_never_validates_witness :
  @EnableWorker (demo_settings true) = true
  /\ (trace (run (@SendWebhookNotify demo_constants (demo_settings true)
                    demo_golib demo_collaborators
                    "http://169.254.169.254/latest" "sec" demo_notify)).2
      = []
      \/ exists req,
           trace (run (@SendWebhookNotify demo_constants (demo_settings true)
                         demo_golib demo_collaborators
                         "http://169.254.169.254/latest" "sec"
                         demo_notify)).2
           = [EvDoWorkerRequest req]).
Proof.
  split; [reflexivity |].
  exact (@worker_mode_never_validates demo_constants (demo_settings true)
           demo_golib demo_collaborators "http://169.254.169.254/latest"
           "sec" demo_notify eq_refl).
Defined.

(** X16. In direct mode a request is sent only to a URL the validator has
    accepted: whenever the delivery reaches [client.Do], the calls before
    it are the validation of the very URL of the request, which returned
    nil, and the construction of the request for the same URL and body. *)
Theorem direct_request_goes_to_validated_url {K : Constants}
    {cfg : Settings} {lib : GoLib} {ext : Collaborators}
    (webhookURL secret : string) (data : dto.Notify) (req : http.Request) :
  EnableWorker = false ->
  EvClientDo req ∈ trace (run (SendWebhookNotify webhookURL secret data)).2 ->
  ValidateURLWithFetchSetting (http.URL req) GetFetchSetting = None
  /\ trace (run (SendWebhookNotify webhookURL secret data)).2
     = [EvValidateURL (http.URL req) GetFetchSetting;
        EvNewRequest MethodPost (http.URL req) (http.Body req);
        EvClientDo req].
Proof.
  intros Hdirect Hin.
  destruct (run (formatWebhook webhookURL secret data)).1
    as [[payloadBytes finalWebhookURL] | e] eqn:Hfmt.
  - rewrite (SendWebhookNotify_events _ _ _ _ _ Hfmt), Hdirect in Hin |- *.
    unfold direct_events in *.
    destruct (ValidateURLWithFetchSetting finalWebhookURL GetFetchSetting)
      eqn:Hval.
    { apply list_elem_of_singleton in Hin. discriminate. }
    destruct (http_NewRequest_err MethodPost finalWebhookURL).
    { apply elem_of_cons in Hin as [Hin | Hin]; [discriminate |].
      apply list_elem_of_singleton in Hin. discriminate. }
    apply elem_of_cons in Hin as [Hin | Hin]; [discriminate |].
    apply elem_of_cons in Hin as [Hin | Hin]; [discriminate |].
    apply list_elem_of_singleton in Hin. injection Hin as ->.
    destruct (setRequestHeaders_keeps webhookURL secret payloadBytes
                {| http.Method := MethodPost; http.URL := finalWebhookURL;
                   http.Body := payloadBytes; http.Header := ∅ |})
      as (-> & -> & _).
    done.
  - apply SendWebhookNotify_events_unformatted in Hfmt as [_ Htr].
    rewrite Htr in Hin. by apply not_elem_of_nil in Hin.
Qed.

Lemma direct_request_goes_to_validated_url_witness :
  EvClientDo
    {| http.Method := "POST";
       http.URL := "https://example.com/hook";
       http.Body := "generic:a xy b %s";
       http.Header :=
         <["X-Webhook-Signature" := "hex(hmac(sec,generic:a xy b %s))"]>
           (<["Content-Type" := "application/json"]> ∅) |}
    ∈ trace (run (@SendWebhookNotify demo_constants (demo_settings false)
                    demo_golib demo_collaborators "https://example.com/hook"
                    "sec" demo_notify)).2
  /\ @ValidateURLWithFetchSetting demo_golib demo_collaborators
       "https://example.com/hook" demo_fetch = None.
Proof.
  assert (Hin :
    EvClientDo
      {| http.Method := "POST";
         http.URL := "https://example.com/hook";
         http.Body := "generic:a xy b %s";
         http.Header :=
           <["X-Webhook-Signature" := "hex(hmac(sec,generic:a xy b %s))"]>
             (<["Content-Type" := "application/json"]> ∅) |}
    ∈ trace (run (@SendWebhookNotify demo_constants (demo_settings false)
                    demo_golib demo_collaborators "https://example.com/hook"
                    "sec" demo_notify)).2).
  { apply (list_elem_of_lookup_2 _ 2%nat). vm_compute. reflexivity. }
  split; [exact Hin |].
  apply (@direct_request_goes_to_validated_url demo_constants
           (demo_settings false) demo_golib demo_collaborators
           "https://example.com/hook" "sec" demo_notify _ eq_refl Hin).
Defined.

(** X17. For a chat-bot destination the secret never becomes a header:
    whatever the secret and the mode, the request that is sent, or the
    descriptor handed to the worker, carries the [Content-Type] header and
    no other, so neither [X-Webhook-Signature] nor [Authorization]. *)
Theorem chat_bot_requests_have_no_signature_header {K : Constants}
    {cfg : Settings} {lib : GoLib} {ext : Collaborators}
    (webhookURL secret : string) (data : dto.Notify) :
  isDingTalkWebhook webhookURL = true ->
  Forall (fun ev =>
            match ev with
            | EvClientDo req =>
                http.Header req
                = <["Content-Type" := "application/json"]> ∅
            | EvDoWorkerRequest req =>
                Headers req = {[ "Content-Type" := "application/json" ]}
            | _ => True
            end)
    (trace (run (SendWebhookNotify webhookURL secret data)).2).
Proof.
  intros Hding.
  destruct (run (formatWebhook webhookURL secret data)).1
    as [[payloadBytes finalWebhookURL] | e] eqn:Hfmt.
  - rewrite (SendWebhookNotify_events _ _ _ _ _ Hfmt).
    destruct EnableWorker.
    + repeat constructor. unfold buildWorkerRequest.
      rewrite Hding. by rewrite andb_false_r.
    + unfold direct_events. constructor; [done |].
      destruct (ValidateURLWithFetchSetting _ _); [constructor |].
      constructor; [done |].
      destruct (http_NewRequest_err _ _); [constructor |].
      repeat constructor. unfold setRequestHeaders.
      rewrite Hding. by rewrite andb_false_r.
  - apply SendWebhookNotify_events_unformatted in Hfmt as [_ ->].
    constructor.
Qed.

Lemma chat_bot_requests_have_no_signature_header_witness :
  isDingTalkWebhook "https://oapi.dingtalk.com/robot/send" = true
  /\ Forall (fun ev =>
               match ev with
               | EvClientDo req =>
                   http.Header req
                   = <["Content-Type" := "application/json"]> ∅
               | EvDoWorkerRequest req =>
                   Headers req = {[ "Content-Type" := "application/json" ]}
               | _ => True
               end)
       (trace (run (@SendWebhookNotify demo_constants (demo_settings true)
                      demo_golib demo_collaborators
                      "https://oapi.dingtalk.com/robot/send" "sec"
                      demo_notify)).2).
Proof.
  split; [reflexivity |].
  exact (@chat_bot_requests_have_no_signature_header demo_constants
           (demo_settings true) demo_golib demo_collaborators
           "https://oapi.dingtalk.com/robot/send" "sec" demo_notify eq_refl).
Defined.

Lemma isDingTalkWebhook_append (webhookURL suffix : string) :
  isDingTalkWebhook webhookURL = true ->
  isDingTalkWebhook (webhookURL +:+ suffix) = true.
Proof.
  unfold isDingTalkWebhook. rewrite !orb_true_iff.
  intros [H | H]; [left | right]; by apply Contains_append_r.
Qed.

(** X18. The final URL of a delivery always begins with the URL that was
    passed in, and it is a chat-bot URL exactly when that one is: signing
    only appends, and never turns one kind of destination into the other. *)
Theorem final_url_extends_the_given_url {K : Constants} {lib : GoLib}
    {ext : Collaborators}
    (webhookURL secret : string) (data : dto.Notify)
    (payloadBytes finalWebhookURL : string) :
  (run (formatWebhook webhookURL secret data)).1
    = Ok (payloadBytes, finalWebhookURL) ->
  String.prefix webhookURL finalWebhookURL = true
  /\ isDingTalkWebhook finalWebhookURL = isDingTalkWebhook webhookURL.
Proof.
  intros Hfmt. apply formatWebhook_ok in Hfmt. simpl in Hfmt.
  destruct (isDingTalkWebhook webhookURL) eqn:Hding.
  - destruct Hfmt as [_ ->].
    destruct (String.eqb secret "").
    + split; [| done]. apply prefix_spec. exists "".
      by rewrite append_nil_r.
    + unfold signedDingTalkURL.
      destruct (strings.Contains webhookURL "?").
      * split; [apply prefix_append |].
        by apply isDingTalkWebhook_append.
      * split; [apply prefix_append |].
        by apply isDingTalkWebhook_append.
  - destruct Hfmt as [_ ->]. split; [| done].
    apply prefix_spec. exists "". by rewrite append_nil_r.
Qed.

Lemma final_url_extends_the_given_url_witness :
  (run (@formatWebhook demo_constants demo_golib demo_collaborators
          "https://api.dingtalk.com/robot" "sec" demo_notify)).1
  = Ok ("dingtalk:### Quota" +:+ LF +:+ LF +:+ "a xy b %s",
        "https://api.dingtalk.com/robot"
        +:+ "?timestamp=1700000000124&sign=b64(hmac(sec,1700000000124"
        +:+ LF +:+ "sec))")
  /\ String.prefix "https://api.dingtalk.com/robot"
       ("https://api.dingtalk.com/robot"
        +:+ "?timestamp=1700000000124&sign=b64(hmac(sec,1700000000124"
        +:+ LF +:+ "sec))") = true
  /\ isDingTalkWebhook
       ("https://api.dingtalk.com/robot"
        +:+ "?timestamp=1700000000124&sign=b64(hmac(sec,1700000000124"
        +:+ LF +:+ "sec))")
     = isDingTalkWebhook "https://api.dingtalk.com/robot".
Proof.
  split; [reflexivity |].
  exact (@final_url_extends_the_given_url demo_constants demo_golib
           demo_collaborators "https://api.dingtalk.com/robot" "sec"
           demo_notify
           ("dingtalk:### Quota" +:+ LF +:+ LF +:+ "a xy b %s")
           _ eq_refl).
Defined.
